(** * Script2Prompt: the scene/prompt reconciliation logic, the scene store
    and the history store, embedded from the TypeScript sources.

    Embedding:
    - [JS]             the fragment of JavaScript values and exceptions the
                       sources rely on (truthiness, [||], property reads,
                       object spread);
    - [PromptSet], [SceneData], [GenerationSettings], [ScriptRow],
      [HistoryItem]    the interfaces of [types.ts];
    - [GeminiService]  [services/geminiService.ts], from the parsed reply on
                       (the reply is typed [any] there, so it is a [JS.value]);
    - [ExportService]  the slot selection shared by the card and the
                       exporters, and the text exporter;
    - [InputSection]   the script text built by [handleSubmit];
    - [App]            the handlers of [App.tsx] over an explicit world
                       (state cells, storage, clock, console).
    - [InputRows]      the row handlers of the input form;
    - [Session]        the handlers as the commands of a session.
    Then [Spec] (the specification's vocabulary), [Samples] (concrete
    data), and the properties: [JSFacts], [Reconciler], [Slots],
    [ScriptText], [SceneStore], [HistoryStore], followed by further
    properties of the code: [HistoryFlows], [AppFlows], [SceneFlows],
    [Sessions], [ExportFlows], [InputFlows], [ReconcilerFlows].

    Handlers run one at a time: a handler reads the state cells as they are
    when it is called, and nothing else touches the world while a request
    of it is pending.

    A list stands for an array, which holds fewer than [2^32] elements.
    Where the size of what the code builds is set by a number rather than
    by its input - the rows of a resize, the text of an export - the limits
    of the language are part of the model: [Array.from] raises from [2^32]
    elements on, and a string longer than the engine's longest raises.
    Memory is not otherwise bounded. *)

From stdpp Require Import gmap list fin_maps pretty.
From Stdlib Require Import ZArith NArith Ascii String.

Set Warnings "-register-all".
Set Default Proof Using "Type".

(* ===================================================================== *)
(** ** JavaScript values *)
(* ===================================================================== *)

Module JS.

(** A JavaScript string is a sequence of UTF-16 code units. *)
Abbreviation jsstring := (list N).

(** An ASCII literal of the source as code units. *)
Fixpoint lit (s : string) : jsstring :=
  match s with
  | EmptyString => []
  | String a r => N_of_ascii a :: lit r
  end.

Arguments lit : simpl never.

(** [`${n}`] for a non-negative integer. *)
Definition show_N (n : N) : jsstring := lit (pretty n).
Definition show_nat (n : nat) : jsstring := show_N (N.of_nat n).
Arguments show_N : simpl never.
Arguments show_nat : simpl never.

(** What a [throw] carries. [Error msg] is [new Error(msg)]; the others are
    the built-in exceptions raised by the runtime itself. *)
Inductive exn :=
| TypeError
| SyntaxError
| RangeError
| DOMException
| Error (message : jsstring).

(** The completion of an expression or statement: a value, or a [throw]. *)
Inductive completion (A : Type) :=
| Normal (a : A)
| Throw (e : exn).
Arguments Normal {A} a.
Arguments Throw {A} e.

#[global] Instance completion_ret : MRet completion := @Normal.
#[global] Instance completion_bind : MBind completion :=
  fun A B f c => match c with Normal a => f a | Throw e => Throw e end.

Definition returns {A} (c : completion A) : Prop := exists a, c = Normal a.

(** Values as [JSON.parse] yields them, plus [undefined], which a read of a
    missing property produces.  Numbers are the integers (the reply schema
    asks for [Type.INTEGER], the count selectors offer integers).  An object
    is its own enumerable properties; enumeration order is not modelled. *)
Inductive value :=
| VUndef
| VNull
| VBool (b : bool)
| VNum (z : Z)
| VStr (s : jsstring)
| VArr (l : list value)
| VObj (m : gmap jsstring value).

(** [ToBoolean]. *)
Definition truthy (v : value) : bool :=
  match v with
  | VUndef | VNull => false
  | VBool b => b
  | VNum z => negb (z =? 0)%Z
  | VStr s => match s with [] => false | _ => true end
  | VArr _ | VObj _ => true
  end.

(** [a || b] on values (both operands here are free of effects). *)
Definition or_else (a b : value) : value := if truthy a then a else b.

(** [v === n] for a number literal [n]. *)
Definition strict_eq_num (v : value) (n : Z) : bool :=
  match v with VNum z => (z =? n)%Z | _ => false end.

Definition nullish (v : value) : bool :=
  match v with VUndef | VNull => true | _ => false end.

Definition isArray (v : value) : bool :=
  match v with VArr _ => true | _ => false end.

(** The own enumerable properties of a value, as [{...v}] copies them:
    those of an object, the indices of an array or of a string, and none
    for the other primitives. *)
Definition own_props (v : value) : gmap jsstring value :=
  match v with
  | VObj m => m
  | VArr l => list_to_map (imap (fun i x => (show_nat i, x)) l)
  | VStr s => list_to_map (imap (fun i c => (show_nat i, VStr [c])) s)
  | _ => ∅
  end.

(** The property [k] as [{...v}] sees it; [undefined] when [v] has none. *)
Definition field (v : value) (k : jsstring) : value :=
  default VUndef (own_props v !! k).

(** [v.k] and [v[k]].  Reading a property of [null] or [undefined] throws a
    [TypeError]; a missing property reads as [undefined].  Arrays and
    strings carry [length].  Inherited methods are not values of this
    model; no key the sources read names one. *)
Definition get_prop (v : value) (k : jsstring) : completion value :=
  match v with
  | VUndef | VNull => Throw TypeError
  | VArr l =>
      if decide (k = lit "length") then Normal (VNum (Z.of_nat (List.length l)))
      else Normal (field v k)
  | VStr s =>
      if decide (k = lit "length") then Normal (VNum (Z.of_nat (List.length s)))
      else Normal (field v k)
  | _ => Normal (field v k)
  end.

(** The two kinds of member of an object literal: [k: v] and [...src]. *)
Inductive member :=
| Member (k : jsstring) (v : value)
| Spread (src : value).

(** What a member does to the object built so far: a later member
    overrides an earlier one with the same key. *)
Definition define (k : jsstring) (v : value) (o : gmap jsstring value) :
  gmap jsstring value := <[k := v]> o.
Definition spread (src : value) (o : gmap jsstring value) :
  gmap jsstring value := own_props src ∪ o.
Definition add_member (o : gmap jsstring value) (m : member) :
  gmap jsstring value :=
  match m with
  | Member k v => define k v o
  | Spread src => spread src o
  end.

(** [{ m1, m2, ... }]: the members are evaluated from left to right. *)
Definition object_literal (members : list member) : value :=
  VObj (fold_left add_member members ∅).

(** [arr.map((x, index) => f x index)] with a callback that may throw: the
    elements are visited in order and the first [throw] ends the call. *)
Fixpoint array_map {A B} (f : A -> nat -> completion B) (l : list A)
    (index : nat) : completion (list B) :=
  match l with
  | [] => Normal []
  | x :: r =>
      y ← f x index;
      ys ← array_map f r (S index);
      Normal (y :: ys)
  end.

(** [arr.forEach((x, index) => ...)] with a callback that updates a
    variable of the enclosing function, [acc], and may throw. *)
Fixpoint array_forEach {A B} (f : A -> nat -> B -> completion B) (l : list A)
    (index : nat) (acc : B) : completion B :=
  match l with
  | [] => Normal acc
  | x :: r =>
      acc ← f x index acc;
      array_forEach f r (S index) acc
  end.

(** [Array.from({ length: n })] for an integer [n]: [n] times [undefined],
    and a [RangeError] when [n] is no array length, that is from [2^32]
    on. *)
Definition Array_from_length (n : Z) : completion (list unit) :=
  if (n <? 2 ^ 32)%Z then Normal (replicate (Z.to_nat n) tt)
  else Throw RangeError.

(** [n.toString()] and [`${n}`] for an integer [n].  Up to [2^53] in
    magnitude every integer is a number and prints as its decimal digits.
    Further out the digits are the engine's choice - the shortest ones that
    read back as the same number, in exponent form from [1e21] on;
    [beyond] stands for that part of the conversion. *)
Definition Number_toString (beyond : Z -> jsstring) (z : Z) : jsstring :=
  if (Z.abs z <=? 2 ^ 53)%Z
  then if (z <? 0)%Z then lit "-" ++ show_N (Z.to_N (- z))
       else show_N (Z.to_N z)
  else beyond z.

(** [s + t] on strings, hence also [s += t]: a result longer than the
    engine's longest string, [limit], raises a [RangeError].  (A literal
    with holes that is appended is built first, and raises the same when
    it is too long on its own.) *)
Definition String_concat (limit : N) (s t : jsstring) : completion jsstring :=
  if (N.of_nat (List.length s + List.length t) <=? limit)%N
  then Normal (s ++ t)
  else Throw RangeError.

End JS.

(* ===================================================================== *)
(** ** [types.ts] *)
(* ===================================================================== *)

Module PromptSet.
Record t := mk {
  t2iEn : JS.jsstring;
  t2iZh : JS.jsstring;
  i2vEn : JS.jsstring;
  i2vZh : JS.jsstring;
}.
End PromptSet.

Module SceneData.
(** [aiSuggestedCount?] and [isRegenerating?] are optional members. *)
Record t := mk {
  id : JS.jsstring;
  originalScript : JS.jsstring;
  imageCount : Z;
  aiSuggestedCount : option Z;
  reasoningEn : JS.jsstring;
  reasoningZh : JS.jsstring;
  prompts : list PromptSet.t;
  isRegenerating : option bool;
}.

(** [Partial<SceneData>]: what a regeneration reply may carry. *)
Record partial := mkPartial {
  id' : option JS.jsstring;
  originalScript' : option JS.jsstring;
  imageCount' : option Z;
  aiSuggestedCount' : option Z;
  reasoningEn' : option JS.jsstring;
  reasoningZh' : option JS.jsstring;
  prompts' : option (list PromptSet.t);
  isRegenerating' : option bool;
}.
End SceneData.

Module GenerationSettings.
(** [defaultImageCount]: 0 indicates "AI Auto". *)
Record t := mk {
  defaultImageCount : Z;
  artStyle : JS.jsstring;
  aspectRatio : JS.jsstring;
}.
End GenerationSettings.

Inductive GenerationStatus := IDLE | GENERATING | COMPLETE | ERROR.

Module ScriptRow.
Record t := mk {
  id : JS.jsstring;
  timestamp : JS.jsstring;
  content : JS.jsstring;
  duration : option JS.jsstring;
}.
End ScriptRow.

Module HistoryItem.
(** script = input only, prompt = results save, all = save all,
    auto = auto-generated. *)
Inductive source_tag := script | prompt | all | auto.

Record t := mk {
  id : JS.jsstring;
  source : source_tag;
  timestamp : N;
  rows : list ScriptRow.t;
  settings : GenerationSettings.t;
  scenes : list SceneData.t;
}.
End HistoryItem.

(* ===================================================================== *)
(** ** [services/geminiService.ts] *)
(* ===================================================================== *)

Module GeminiService.
Import JS.

Definition invalid_structure : exn :=
  Error (lit "Invalid response structure from AI").

(** The fallback prompt set of [generateFullScriptAnalysis]; the two
    Chinese markers are written by their code units. *)
Definition sentinel : value :=
  VObj (list_to_map
    [ (lit "t2iEn", VStr (lit "Error generating prompt"));
      (lit "t2iZh", VStr [0x751f; 0x6210; 0x63d0; 0x793a; 0x8bcd; 0x9519; 0x8bef]%N);
      (lit "i2vEn", VStr (lit "Error"));
      (lit "i2vZh", VStr [0x9519; 0x8bef]%N) ]).

(** The callback of [parsed.scenes.map((scene: any, index: number) => ...)].
    [now index] is what [Date.now()] returns in the call for [index]. *)
Definition sceneOfReply (settings : GenerationSettings.t) (now : nat -> N)
    (scene : value) (index : nat) : completion value :=
  finalCount ←
    (if (GenerationSettings.defaultImageCount settings =? 0)%Z
     then s ← get_prop scene (lit "suggestedImageCount");
          mret (or_else s (VNum 1))
     else mret (VNum (GenerationSettings.defaultImageCount settings)));
  p ← get_prop scene (lit "prompts");
  let prompts := or_else p (VArr []) in
  len ← get_prop prompts (lit "length");
  let prompts := if strict_eq_num len 0 then VArr [sentinel] else prompts in
  suggested ← get_prop scene (lit "suggestedImageCount");
  mret (object_literal
    [ Member (lit "id")
        (VStr (lit "scene-" ++ show_N (now index) ++ lit "-" ++ show_nat index));
      Member (lit "imageCount") finalCount;
      Member (lit "aiSuggestedCount") suggested;
      Spread scene;
      Member (lit "prompts") prompts ]).

(** [generateFullScriptAnalysis] from [const parsed = JSON.parse(...)] on:
    the request and the parse come before and hand over [parsed]. *)
Definition generateFullScriptAnalysis (parsed : value)
    (settings : GenerationSettings.t) (now : nat -> N) :
    completion (list value) :=
  scenes ← get_prop parsed (lit "scenes");
  if negb (truthy scenes) || negb (isArray scenes)
  then Throw invalid_structure
  else match scenes with
       | VArr l => array_map (sceneOfReply settings now) l 0
       | _ => Throw TypeError
       end.

End GeminiService.

(* ===================================================================== *)
(** ** [utils/exportService.ts] and the prompt slots of [SceneCard] *)
(* ===================================================================== *)

Module ExportService.
Import JS.

(** [arr[i]] for an integer [i]: [undefined] outside the array. *)
Definition at_index {A} (l : list A) (i : Z) : option A :=
  if (i <? 0)%Z then None else l !! Z.to_nat i.

(** [a || b] where [a] and [b] are objects or [undefined]: an object is
    truthy, [undefined] is not. *)
Definition or_undefined {A} (a b : option A) : option A :=
  match a with Some x => Some x | None => b end.

(** [scene.prompts[i] || scene.prompts[scene.prompts.length - 1]
     || scene.prompts[0]], the expression that [SceneCard], [exportToTxt],
    [exportToDocx] and [exportToPdf] all use for slot [i]. *)
Definition slotPrompt (scene : SceneData.t) (i : Z) : option PromptSet.t :=
  let prompts := SceneData.prompts scene in
  or_undefined (at_index prompts i)
    (or_undefined (at_index prompts (Z.of_nat (List.length prompts) - 1))
       (at_index prompts 0)).

Section Engine.

(** What the engine fixes: its longest string, [limit] code units (less
    than [2^53] by the language definition, so that the loop below ends
    before its counter stops counting), and how it prints the integers
    beyond [2^53]. *)
Variable limit : N.
Variable beyond : Z -> jsstring.

(** [content += piece]. *)
Definition append (content piece : jsstring) : completion jsstring :=
  String_concat limit content piece.

(** One turn of [for (let i = 0; i < count; i++)] in [exportToTxt], on the
    [content] built so far: the slot is selected, its heading appended, and
    reading a member of an [undefined] prompt throws. *)
Definition txtSlot (scene : SceneData.t) (i : Z) (content : jsstring) :
    completion jsstring :=
  let prompt := slotPrompt scene i in
  content ← append content
    (lit "--- Image #" ++ Number_toString beyond (i + 1) ++ lit " ---"
     ++ [10%N]);
  match prompt with
  | None => Throw TypeError
  | Some prompt =>
      content ← append content
        (lit "[T2I Prompt - EN]" ++ [10%N] ++ PromptSet.t2iEn prompt ++ [10%N]);
      content ← append content
        (lit "[T2I Prompt - ZH]" ++ [10%N] ++ PromptSet.t2iZh prompt ++ [10%N]);
      content ← append content
        (lit "[I2V Prompt - EN]" ++ [10%N] ++ PromptSet.i2vEn prompt ++ [10%N]);
      append content
        (lit "[I2V Prompt - ZH]" ++ [10%N] ++ PromptSet.i2vZh prompt
         ++ [10%N; 10%N])
  end.

(** The loop over the slots [i, i+1, ...] with [n] turns left. *)
Fixpoint txtSlots (scene : SceneData.t) (i : Z) (n : nat)
    (content : jsstring) : completion jsstring :=
  match n with
  | O => Normal content
  | S n' =>
      content ← txtSlot scene i content;
      txtSlots scene (i + 1) n' content
  end.

(** The callback of [scenes.forEach] in [exportToTxt]. *)
Definition txtScene (scene : SceneData.t) (index : nat) (content : jsstring) :
    completion jsstring :=
  content ← append content
    (lit "SCENE " ++ show_nat (index + 1) ++ lit ": "
     ++ SceneData.originalScript scene ++ [10%N]);
  content ← append content
    (lit "Images Qty: " ++ Number_toString beyond (SceneData.imageCount scene)
     ++ [10%N; 10%N]);
  content ← append content
    (lit "[Reasoning - EN]" ++ [10%N] ++ SceneData.reasoningEn scene ++ [10%N]);
  content ← append content
    (lit "[Reasoning - ZH]" ++ [10%N] ++ SceneData.reasoningZh scene
     ++ [10%N; 10%N]);
  let count := SceneData.imageCount scene in
  content ← txtSlots scene 0 (Z.to_nat count) content;
  append content
    (lit "-------------------------------------------------" ++ [10%N; 10%N]).

(** The [content] that [exportToTxt] hands to the blob; [date] is
    [new Date().toLocaleString()]. *)
Definition exportToTxt (scenes : list SceneData.t)
    (settings : option GenerationSettings.t) (date : jsstring) :
    completion jsstring :=
  let content := lit "Script2Prompt Export" ++ [10%N] in
  content ← append content (lit "Generated: " ++ date ++ [10%N]);
  content ← match settings with
            | Some st =>
                append content
                  (lit "Style: " ++ GenerationSettings.artStyle st
                   ++ lit " | Ratio: " ++ GenerationSettings.aspectRatio st
                   ++ [10%N])
            | None => Normal content
            end;
  content ← append content
    (lit "=================================================" ++ [10%N; 10%N]);
  array_forEach txtScene scenes 0 content.

End Engine.

End ExportService.

(* ===================================================================== *)
(** ** [components/InputSection.tsx]: the script text of [handleSubmit] *)
(* ===================================================================== *)

Module InputSection.
Import JS.

(** The code units [String.prototype.trim] strips: ECMAScript's WhiteSpace
    and LineTerminator. *)
Definition is_whitespace (c : N) : bool :=
  ((c =? 0x9) || (c =? 0xA) || (c =? 0xB) || (c =? 0xC) || (c =? 0xD)
   || (c =? 0x20) || (c =? 0xA0) || (c =? 0x1680)
   || ((0x2000 <=? c) && (c <=? 0x200A))
   || (c =? 0x2028) || (c =? 0x2029) || (c =? 0x202F) || (c =? 0x205F)
   || (c =? 0x3000) || (c =? 0xFEFF))%N.

Fixpoint dropWhile {A} (p : A -> bool) (l : list A) : list A :=
  match l with
  | [] => []
  | x :: r => if p x then dropWhile p r else l
  end.

Definition trimStart (s : jsstring) : jsstring := dropWhile is_whitespace s.
Definition trimEnd (s : jsstring) : jsstring :=
  reverse (dropWhile is_whitespace (reverse s)).
Definition trim (s : jsstring) : jsstring := trimEnd (trimStart s).

(** A string as a condition: the empty string is falsy. *)
Definition nonempty (s : jsstring) : bool :=
  match s with [] => false | _ => true end.

(** [lines.join(sep)]. *)
Definition join (sep : jsstring) (lines : list jsstring) : jsstring :=
  match lines with
  | [] => []
  | x :: r => x ++ flat_map (fun y => sep ++ y) r
  end.

(** The [map] callback of [handleSubmit]. *)
Definition renderRow (r : ScriptRow.t) : jsstring :=
  let time :=
    if nonempty (trim (ScriptRow.timestamp r))
    then lit "[" ++ ScriptRow.timestamp r ++ lit "] "
    else [] in
  time ++ ScriptRow.content r.

(** [const scriptText = rows.filter(...).map(...).join('\n')]. *)
Definition scriptText (rows : list ScriptRow.t) : jsstring :=
  join [10%N]
    (map renderRow
       (List.filter (fun r => nonempty (trim (ScriptRow.content r))) rows)).

(** [handleSubmit]: the arguments of the [onGenerate] call, if it is made. *)
Definition handleSubmit (rows : list ScriptRow.t) (status : GenerationStatus)
    (settings : GenerationSettings.t) :
    option (jsstring * GenerationSettings.t) :=
  let text := scriptText rows in
  if nonempty (trim text)
     && negb (match status with GENERATING => true | _ => false end)
  then Some (text, settings)
  else None.

End InputSection.

(* ===================================================================== *)
(** ** [components/InputSection.tsx]: the row handlers *)
(* ===================================================================== *)

Module InputRows.
Import JS.

(** The [rows] the component is handed and its two cells of its own.
    [rowsToAdd] holds what [parseInt(...) || 1] gave, an integer. *)
Record Form := mkForm {
  rows : list ScriptRow.t;
  rowsToAdd : Z;
  totalRowsInput : jsstring;
}.

(** The members of a row that [updateRow] may name ([keyof ScriptRow]). *)
Inductive ScriptRowKey := key_id | key_timestamp | key_content | key_duration.

(** [arr.slice(0, end)] for an integer [end]: a negative [end] counts back
    from the end of the array. *)
Definition slice0 {A} (l : list A) (n : Z) : list A :=
  if (n <? 0)%Z
  then take (Z.to_nat (Z.max (Z.of_nat (List.length l) + n) 0)) l
  else take (Z.to_nat n) l.

Section Engine.

(** How the engine prints the integers beyond [2^53]. *)
Variable beyond : Z -> jsstring.

(** The updater that [updateRowsList] hands to [setRows].  [now i] is what
    [Date.now()] returns in the call that makes the [i]-th new row. *)
Definition resizedRows (now : nat -> N) (newCount : Z)
    (currentRows : list ScriptRow.t) : completion (list ScriptRow.t) :=
  let currentCount := Z.of_nat (List.length currentRows) in
  if (newCount >? currentCount)%Z then
    let toAdd := (newCount - currentCount)%Z in
    blanks ← Array_from_length toAdd;
    let newItems :=
      imap (fun i (_ : unit) =>
              ScriptRow.mk
                (show_N (now i) ++ lit "-"
                 ++ Number_toString beyond (currentCount + Z.of_nat i))
                [] [] (Some []))
        blanks in
    Normal (currentRows ++ newItems)
  else if (newCount <? currentCount)%Z then Normal (slice0 currentRows newCount)
  else Normal currentRows.

(** [updateRowsList]: the two state updates it asks for.  An updater that
    raises makes the update of the rows raise, and the form has no next
    state. *)
Definition updateRowsList (now : nat -> N) (newCount : Z) (f : Form) :
    completion Form :=
  newRows ← resizedRows now newCount (rows f);
  Normal (mkForm newRows (rowsToAdd f) (Number_toString beyond newCount)).

Definition handleAddRows (now : nat -> N) (f : Form) : completion Form :=
  updateRowsList now (Z.of_nat (List.length (rows f)) + rowsToAdd f) f.

End Engine.

Definition handleRemoveRow (id : jsstring) (f : Form) : Form :=
  if (1 <? Z.of_nat (List.length (rows f)))%Z then
    let newRows :=
      List.filter (fun row => negb (bool_decide (ScriptRow.id row = id)))
        (rows f) in
    mkForm newRows (rowsToAdd f) (show_nat (List.length newRows))
  else f.

(** [{ ...row, [field]: value }]. *)
Definition withField (field : ScriptRowKey) (value : jsstring)
    (row : ScriptRow.t) : ScriptRow.t :=
  match field with
  | key_id =>
      ScriptRow.mk value (ScriptRow.timestamp row) (ScriptRow.content row)
        (ScriptRow.duration row)
  | key_timestamp =>
      ScriptRow.mk (ScriptRow.id row) value (ScriptRow.content row)
        (ScriptRow.duration row)
  | key_content =>
      ScriptRow.mk (ScriptRow.id row) (ScriptRow.timestamp row) value
        (ScriptRow.duration row)
  | key_duration =>
      ScriptRow.mk (ScriptRow.id row) (ScriptRow.timestamp row)
        (ScriptRow.content row) (Some value)
  end.

Definition updateRow (id : jsstring) (field : ScriptRowKey) (value : jsstring)
    (f : Form) : Form :=
  mkForm
    (map (fun row => if decide (ScriptRow.id row = id)
                     then withField field value row else row)
       (rows f))
    (rowsToAdd f) (totalRowsInput f).

End InputRows.

(* ===================================================================== *)
(** ** [App.tsx]: state, storage and handlers *)
(* ===================================================================== *)

Module App.
Import JS.

Definition DEFAULT_SETTINGS : GenerationSettings.t :=
  GenerationSettings.mk 0 (lit "Cinematic Realistic") (lit "16:9").

(** The [useState] cells the handlers touch (the two export-menu flags are
    left out: no handler below reads or writes them). *)
Record State := mkState {
  rows : list ScriptRow.t;
  settings : GenerationSettings.t;
  scenes : list SceneData.t;
  status : GenerationStatus;
  error : option jsstring;
  activeSettings : option GenerationSettings.t;
  showHistory : bool;
  history : list HistoryItem.t;
}.

Definition initialState : State :=
  mkState [ScriptRow.mk (lit "1") (lit "00:00") [] (Some [])]
    DEFAULT_SETTINGS [] IDLE None None false [].

(** [localStorage] as the app sees it: the item under
    ['script2prompt_history'], whether reading is allowed at all, and which
    payloads a write accepts (quota, browser policy). *)
Record LocalStorage := mkStorage {
  stored : option jsstring;
  readable : bool;
  accepts : jsstring -> bool;
}.

(** Everything a handler can read or change.  [clock] lists the successive
    answers of [Date.now()], [reads] counts the calls made so far. *)
Record World := mkWorld {
  state : State;
  storage : LocalStorage;
  clock : nat -> N;
  reads : nat;
  console : list (jsstring * exn);
  alerts : list jsstring;
}.

(** A statement sequence over the world that may throw; what was written
    before the [throw] stays written. *)
Definition action (A : Type) : Type := World -> completion A * World.

#[global] Instance action_ret : MRet action := fun A a w => (Normal a, w).
#[global] Instance action_bind : MBind action :=
  fun A B f m w =>
    match m w with
    | (Normal a, w') => f a w'
    | (Throw e, w') => (Throw e, w')
    end.

(** [try { body } catch (e) { handler e }]. *)
Definition try_catch {A} (body : action A) (handler : exn -> action A) :
    action A :=
  fun w =>
    match body w with
    | (Throw e, w') => handler e w'
    | done => done
    end.

Definition lift {A} (c : completion A) : action A := fun w => (c, w).

Definition getState : action State := fun w => (Normal (state w), w).

Definition modifyState (f : State -> State) : action unit :=
  fun w => (Normal tt,
            mkWorld (f (state w)) (storage w) (clock w) (reads w)
              (console w) (alerts w)).

Definition setRows (v : list ScriptRow.t) : action unit :=
  modifyState (fun s => mkState v (settings s) (scenes s) (status s) (error s)
                          (activeSettings s) (showHistory s) (history s)).
Definition setSettings (v : GenerationSettings.t) : action unit :=
  modifyState (fun s => mkState (rows s) v (scenes s) (status s) (error s)
                          (activeSettings s) (showHistory s) (history s)).
Definition updateScenes (f : list SceneData.t -> list SceneData.t) : action unit :=
  modifyState (fun s => mkState (rows s) (settings s) (f (scenes s)) (status s)
                          (error s) (activeSettings s) (showHistory s) (history s)).
Definition setScenes (v : list SceneData.t) : action unit :=
  updateScenes (fun _ => v).
Definition setStatus (v : GenerationStatus) : action unit :=
  modifyState (fun s => mkState (rows s) (settings s) (scenes s) v (error s)
                          (activeSettings s) (showHistory s) (history s)).
Definition setError (v : option jsstring) : action unit :=
  modifyState (fun s => mkState (rows s) (settings s) (scenes s) (status s) v
                          (activeSettings s) (showHistory s) (history s)).
Definition setActiveSettings (v : option GenerationSettings.t) : action unit :=
  modifyState (fun s => mkState (rows s) (settings s) (scenes s) (status s)
                          (error s) v (showHistory s) (history s)).
Definition setShowHistory (v : bool) : action unit :=
  modifyState (fun s => mkState (rows s) (settings s) (scenes s) (status s)
                          (error s) (activeSettings s) v (history s)).
Definition setHistory (v : list HistoryItem.t) : action unit :=
  modifyState (fun s => mkState (rows s) (settings s) (scenes s) (status s)
                          (error s) (activeSettings s) (showHistory s) v).

(** [Date.now()]. *)
Definition Date_now : action N :=
  fun w => (Normal (clock w (reads w)),
            mkWorld (state w) (storage w) (clock w) (S (reads w))
              (console w) (alerts w)).

(** [console.error(label, e)]. *)
Definition console_error (label : jsstring) (e : exn) : action unit :=
  fun w => (Normal tt,
            mkWorld (state w) (storage w) (clock w) (reads w)
              (console w ++ [(label, e)]) (alerts w)).

(** [alert(message)]. *)
Definition alert (message : jsstring) : action unit :=
  fun w => (Normal tt,
            mkWorld (state w) (storage w) (clock w) (reads w)
              (console w) (alerts w ++ [message])).

(** [localStorage.getItem('script2prompt_history')]. *)
Definition localStorage_getItem : action (option jsstring) :=
  fun w =>
    if readable (storage w) then (Normal (stored (storage w)), w)
    else (Throw DOMException, w).

(** [localStorage.setItem('script2prompt_history', payload)]. *)
Definition localStorage_setItem (payload : jsstring) : action unit :=
  fun w =>
    if accepts (storage w) payload
    then (Normal tt,
          mkWorld (state w)
            (mkStorage (Some payload) (readable (storage w)) (accepts (storage w)))
            (clock w) (reads w) (console w) (alerts w))
    else (Throw DOMException, w).

(** [{ ...s, isRegenerating: b }]. *)
Definition withRegenerating (b : bool) (s : SceneData.t) : SceneData.t :=
  SceneData.mk (SceneData.id s) (SceneData.originalScript s)
    (SceneData.imageCount s) (SceneData.aiSuggestedCount s)
    (SceneData.reasoningEn s) (SceneData.reasoningZh s)
    (SceneData.prompts s) (Some b).

(** [{ ...s, imageCount: count }]. *)
Definition withImageCount (count : Z) (s : SceneData.t) : SceneData.t :=
  SceneData.mk (SceneData.id s) (SceneData.originalScript s)
    count (SceneData.aiSuggestedCount s)
    (SceneData.reasoningEn s) (SceneData.reasoningZh s)
    (SceneData.prompts s) (SceneData.isRegenerating s).

(** [{ ...s, ...updatedData, isRegenerating: false }]: a member the reply
    carries replaces that of [s]. *)
Definition mergeRegenerated (s : SceneData.t) (updatedData : SceneData.partial) :
    SceneData.t :=
  SceneData.mk
    (default (SceneData.id s) (SceneData.id' updatedData))
    (default (SceneData.originalScript s) (SceneData.originalScript' updatedData))
    (default (SceneData.imageCount s) (SceneData.imageCount' updatedData))
    (match SceneData.aiSuggestedCount' updatedData with
     | Some n => Some n
     | None => SceneData.aiSuggestedCount s
     end)
    (default (SceneData.reasoningEn s) (SceneData.reasoningEn' updatedData))
    (default (SceneData.reasoningZh s) (SceneData.reasoningZh' updatedData))
    (default (SceneData.prompts s) (SceneData.prompts' updatedData))
    (Some false).

(** [prev.map(s => s.id === id ? f s : s)]. *)
Definition mapScene (id : jsstring) (f : SceneData.t -> SceneData.t)
    (prev : list SceneData.t) : list SceneData.t :=
  map (fun s => if decide (SceneData.id s = id) then f s else s) prev.

Section Handlers.

(** [JSON.stringify] and [JSON.parse] on the history log.  The payload
    under the key is written by the application alone, so a successful
    parse is read as a log. *)
Variable JSON_stringify : list HistoryItem.t -> jsstring.
Variable JSON_parse : jsstring -> completion (list HistoryItem.t).

(** The effect that loads the history on mount. *)
Definition loadHistory : action unit :=
  savedHistory ← localStorage_getItem;
  match savedHistory with
  | Some text =>
      if InputSection.nonempty text
      then try_catch
             (parsed ← lift (JSON_parse text); setHistory parsed)
             (fun e => console_error (lit "Failed to parse history") e)
      else mret tt
  | None => mret tt
  end.

Definition saveToHistory (generatedScenes : list SceneData.t)
    (currentRows : list ScriptRow.t) (currentSettings : GenerationSettings.t)
    (source : HistoryItem.source_tag) : action unit :=
  st ← getState;
  idTime ← Date_now;
  stamp ← Date_now;
  let newItem :=
    HistoryItem.mk (show_N idTime) source stamp currentRows currentSettings
      generatedScenes in
  let updatedHistory := take 30 (newItem :: history st) in
  setHistory updatedHistory;;
  localStorage_setItem (JSON_stringify updatedHistory).

Definition deleteHistoryItem (id : jsstring) : action unit :=
  st ← getState;
  let updated :=
    List.filter (fun item => negb (bool_decide (HistoryItem.id item = id)))
      (history st) in
  setHistory updated;;
  localStorage_setItem (JSON_stringify updated).

(** [confirmed] is the answer to [window.confirm]. *)
Definition loadHistoryItem (confirmed : bool) (item : HistoryItem.t) :
    action unit :=
  if confirmed then
    setRows (HistoryItem.rows item);;
    setSettings (HistoryItem.settings item);;
    setActiveSettings (Some (HistoryItem.settings item));;
    setScenes (HistoryItem.scenes item);;
    (if (0 <? Z.of_nat (List.length (HistoryItem.scenes item)))%Z
     then setStatus COMPLETE
     else setStatus IDLE);;
    setShowHistory false
  else mret tt.

(** [generated] is how the promise of [generateFullScriptAnalysis] settles. *)
Definition handleGenerate (generated : completion (list SceneData.t))
    (scriptText : jsstring) (genSettings : GenerationSettings.t) :
    action unit :=
  st ← getState;
  try_catch
    (setStatus GENERATING;;
     setError None;;
     setActiveSettings (Some genSettings);;
     newScenes ← lift generated;
     setScenes newScenes;;
     setStatus COMPLETE;;
     saveToHistory newScenes (rows st) genSettings HistoryItem.auto)
    (fun err =>
       console_error [] err;;
       setError (Some (lit
         "Failed to generate prompts. Please check your API key and try again."));;
       setStatus ERROR).

Definition handleSaveScript : action unit :=
  st ← getState;
  saveToHistory [] (rows st) (settings st) HistoryItem.script;;
  alert (lit "Script Only saved to History!").

Definition handleSavePrompt : action unit :=
  st ← getState;
  match activeSettings st with
  | Some active =>
      saveToHistory (scenes st) (rows st) active HistoryItem.prompt;;
      alert (lit "Generated Prompts saved to History!")
  | None => mret tt
  end.

Definition handleSaveAll : action unit :=
  st ← getState;
  match activeSettings st with
  | Some active =>
      saveToHistory (scenes st) (rows st) active HistoryItem.all;;
      alert (lit "Full Project (Script + Results) saved to History!")
  | None => mret tt
  end.

(** [regenerateScene originalScript settings count] is how the promise of
    the service call settles. *)
Definition handleRegenerateScene
    (regenerateScene :
       jsstring -> GenerationSettings.t -> Z -> completion SceneData.partial)
    (id : jsstring) (currentCount : Z) : action unit :=
  st ← getState;
  match activeSettings st with
  | None => mret tt
  | Some active =>
      updateScenes (mapScene id (withRegenerating true));;
      try_catch
        (match List.find (fun s => bool_decide (SceneData.id s = id)) (scenes st) with
         | None => mret tt
         | Some sceneToRegen =>
             updatedData ←
               lift (regenerateScene (SceneData.originalScript sceneToRegen)
                       active currentCount);
             updateScenes (mapScene id (fun s => mergeRegenerated s updatedData))
         end)
        (fun err =>
           console_error [] err;;
           updateScenes (mapScene id (withRegenerating false)))
  end.

Definition handleUpdateImageCount (id : jsstring) (count : Z) : action unit :=
  updateScenes (mapScene id (withImageCount count)).

End Handlers.

End App.

(* ===================================================================== *)
(** ** [App.tsx]: what the buttons are wired to *)
(* ===================================================================== *)

Module Session.
Import JS App.

(** The handlers the rendered tree attaches to its controls, each with what
    the user or the service supplies to it. *)
Inductive command :=
| SaveScript
| SavePrompt
| SaveAll
| DeleteItem (id : jsstring)
| RestoreItem (confirmed : bool) (item : HistoryItem.t)
| Generate (generated : completion (list SceneData.t)) (scriptText : jsstring)
    (genSettings : GenerationSettings.t)
| Regenerate
    (regenerateScene :
       jsstring -> GenerationSettings.t -> Z -> completion SceneData.partial)
    (id : jsstring) (currentCount : Z)
| UpdateCount (id : jsstring) (count : Z)
| ClearAll.

Section Wiring.

Variable JSON_stringify : list HistoryItem.t -> jsstring.

Definition perform (c : command) : action unit :=
  match c with
  | SaveScript => handleSaveScript JSON_stringify
  | SavePrompt => handleSavePrompt JSON_stringify
  | SaveAll => handleSaveAll JSON_stringify
  | DeleteItem id => deleteHistoryItem JSON_stringify id
  | RestoreItem confirmed item => loadHistoryItem confirmed item
  | Generate generated scriptText genSettings =>
      handleGenerate JSON_stringify generated scriptText genSettings
  | Regenerate regenerateScene id currentCount =>
      handleRegenerateScene regenerateScene id currentCount
  | UpdateCount id count => handleUpdateImageCount id count
  | ClearAll => setScenes []
  end.

(** The commands of a session, one after the other.  An exception ends the
    handler that raised it, not the session. *)
Fixpoint session (cs : list command) (w : World) : World :=
  match cs with
  | [] => w
  | c :: rest => session rest (perform c w).2
  end.

End Wiring.

End Session.

(* ===================================================================== *)
(** ** The specification's vocabulary *)
(* ===================================================================== *)

(** The notions the specification speaks with, written after its words;
    the properties below relate them to the code. *)
Module Spec.
Import JS.

(** The effective image count: the model's suggestion (1 when it is absent
    or falsy) under "AI Auto", the configured default otherwise. *)
Definition finalCount (settings : GenerationSettings.t) (scene : value) : value :=
  if (GenerationSettings.defaultImageCount settings =? 0)%Z
  then or_else (field scene (lit "suggestedImageCount")) (VNum 1)
  else VNum (GenerationSettings.defaultImageCount settings).

(** [v.length] where the read cannot throw. *)
Definition lengthOf (v : value) : value :=
  match get_prop v (lit "length") with Normal n => n | Throw _ => VUndef end.

(** The prompts of a produced scene: the reply's, or the sentinel alone. *)
Definition finalPrompts (scene : value) : value :=
  let prompts := or_else (field scene (lit "prompts")) (VArr []) in
  if strict_eq_num (lengthOf prompts) 0
  then VArr [GeminiService.sentinel]
  else prompts.

(** The id given to the scene made in the call for [index]. *)
Definition sceneId (now : nat -> N) (index : nat) : value :=
  VStr (lit "scene-" ++ show_N (now index) ++ lit "-" ++ show_nat index).

(** A string is blank when every code unit of it is white space. *)
Definition blank (s : jsstring) : bool := forallb InputSection.is_whitespace s.

(** A row as the specification renders it: [[timestamp] content] when the
    timestamp is not blank, the bare content otherwise. *)
Definition line (r : ScriptRow.t) : jsstring :=
  if blank (ScriptRow.timestamp r)
  then ScriptRow.content r
  else lit "[" ++ ScriptRow.timestamp r ++ lit "] " ++ ScriptRow.content r.

(** The rows the specification keeps: those with a content that is not
    blank, in their order. *)
Definition keptRows (rows : list ScriptRow.t) : list ScriptRow.t :=
  List.filter (fun r => negb (blank (ScriptRow.content r))) rows.

(** [s.split(sep)] for a separator of one code unit: the lines of a text. *)
Fixpoint split (sep : N) (s : jsstring) : list jsstring :=
  match s with
  | [] => [[]]
  | c :: r =>
      if (c =? sep)%N then [] :: split sep r
      else match split sep r with
           | h :: t => (c :: h) :: t
           | [] => [[c]]
           end
  end.

(** The history item an append builds in world [w]: the id and the stamp
    are the next two readings of the clock. *)
Definition snapshot (w : App.World) (generatedScenes : list SceneData.t)
    (currentRows : list ScriptRow.t) (currentSettings : GenerationSettings.t)
    (source : HistoryItem.source_tag) : HistoryItem.t :=
  HistoryItem.mk (show_N (App.clock w (App.reads w))) source
    (App.clock w (S (App.reads w)))
    currentRows currentSettings generatedScenes.

End Spec.

(* ===================================================================== *)
(** ** Sample data *)
(* ===================================================================== *)

Module Samples.
Import JS App.

(** *** Replies of the model *)

Definition samplePrompt (tag : string) : value :=
  VObj (list_to_map
    [ (lit "t2iEn", VStr (lit tag)); (lit "t2iZh", VStr (lit tag));
      (lit "i2vEn", VStr (lit tag)); (lit "i2vZh", VStr (lit tag)) ]).

Definition settingsAuto : GenerationSettings.t :=
  GenerationSettings.mk 0 (lit "Cinematic Realistic") (lit "16:9").
Definition settingsTwo : GenerationSettings.t :=
  GenerationSettings.mk 2 (lit "Cinematic Realistic") (lit "16:9").

Definition sampleNow : nat -> N := fun _ => 1700000000000%N.

(** A scene element as the reply schema asks for it. *)
Definition replyScene : value :=
  VObj (list_to_map
    [ (lit "originalScript", VStr (lit "A hero walks into a bar."));
      (lit "suggestedImageCount", VNum 3);
      (lit "reasoningEn", VStr (lit "wide, then close"));
      (lit "reasoningZh", VStr (lit "wide, then close"));
      (lit "prompts",
       VArr [samplePrompt "wide"; samplePrompt "medium"; samplePrompt "close"]) ]).

(** The same with a count member of its own. *)
Definition replySceneWithCount : value :=
  VObj (list_to_map
    [ (lit "originalScript", VStr (lit "A hero walks into a bar."));
      (lit "suggestedImageCount", VNum 3);
      (lit "imageCount", VNum 7);
      (lit "reasoningEn", VStr (lit "wide, then close"));
      (lit "reasoningZh", VStr (lit "wide, then close"));
      (lit "prompts", VArr [samplePrompt "wide"]) ]).

(** An element with an empty prompts array. *)
Definition replySceneNoPrompts : value :=
  VObj (list_to_map
    [ (lit "originalScript", VStr (lit "A hero walks into a bar."));
      (lit "suggestedImageCount", VNum 2);
      (lit "prompts", VArr []) ]).

(** An element whose [prompts] is one prompt set instead of an array. *)
Definition replySceneOnePrompt : value :=
  VObj (list_to_map
    [ (lit "originalScript", VStr (lit "A hero walks into a bar."));
      (lit "suggestedImageCount", VNum 1);
      (lit "prompts", samplePrompt "wide") ]).

(** [{"scenes": [replyScene]}], [{"scenes": [null]}] and [{}]. *)
Definition replyOneScene : value :=
  VObj (list_to_map [ (lit "scenes", VArr [replyScene]) ]).
Definition replyNullScene : value :=
  VObj (list_to_map [ (lit "scenes", VArr [VNull]) ]).
Definition replyEmptyObject : value := VObj ∅.

(** *** Rows, scenes and worlds *)

(** Three rows, the second blank and the third without a timestamp. *)
Definition sampleRows : list ScriptRow.t :=
  [ ScriptRow.mk (lit "1") (lit "00:00") (lit "A hero walks into a bar.")
      (Some (lit "5"));
    ScriptRow.mk (lit "2") (lit "00:05") (lit "   ") None;
    ScriptRow.mk (lit "3") (lit " ") (lit "He orders a drink.") None ].

Definition samplePromptSet (tag : string) : PromptSet.t :=
  PromptSet.mk (lit tag) (lit tag) (lit tag) (lit tag).

(** Two prompts for four slots, as after a manual raise of the quantity. *)
Definition sampleScene : SceneData.t :=
  SceneData.mk (lit "scene-1700000000000-0") (lit "A hero walks into a bar.")
    4 (Some 2%Z) (lit "wide, then close") (lit "wide, then close")
    [samplePromptSet "wide"; samplePromptSet "close"] None.

Definition otherScene : SceneData.t :=
  SceneData.mk (lit "scene-1700000000000-1") (lit "He orders a drink.")
    1 (Some 1%Z) (lit "close") (lit "close")
    [samplePromptSet "close"] None.

Definition sampleClock : nat -> N := fun n => (1700000000000 + N.of_nat n)%N.

(** An engine that prints every integer beyond [2^53] as [1e+21]. *)
Definition sampleBeyond : Z -> jsstring := fun _ => lit "1e+21".

(** One row whose content was typed on two lines. *)
Definition multilineRows : list ScriptRow.t :=
  [ ScriptRow.mk (lit "1") [] (lit "a" ++ [10%N] ++ lit "b") None ].

(** A store of two scenes, the first being regenerated. *)
Definition busyWorld : World :=
  mkWorld
    (mkState sampleRows DEFAULT_SETTINGS
       [withRegenerating true sampleScene; otherScene]
       COMPLETE None (Some DEFAULT_SETTINGS) false [])
    (mkStorage None true (fun _ => true))
    sampleClock 0 [] [].

(** A service whose request is refused. *)
Definition refusedRequest :
    jsstring -> GenerationSettings.t -> Z -> completion SceneData.partial :=
  fun _ _ _ => Throw (Error (lit "503")).

(** A codec for the examples: the payload names the size of the log and
    parses back to the empty log; any other text is rejected. *)
Definition sampleStringify (log : list HistoryItem.t) : jsstring :=
  show_nat (List.length log).
Definition sampleParse (text : jsstring) : completion (list HistoryItem.t) :=
  if decide (text = lit "0") then Normal [] else Throw SyntaxError.

(** A fresh session, one whose storage is full, one whose storage may not
    be read, one whose stored payload is corrupt. *)
Definition freshWorld : World :=
  mkWorld initialState (mkStorage None true (fun _ => true)) sampleClock 0 [] [].

Definition fullStorageWorld : World :=
  mkWorld
    (mkState sampleRows DEFAULT_SETTINGS [] IDLE None None false [])
    (mkStorage None true (fun _ => false))
    sampleClock 0 [] [].

Definition blockedStorageWorld : World :=
  mkWorld initialState (mkStorage None false (fun _ => false))
    sampleClock 0 [] [].

Definition corruptStorageWorld : World :=
  mkWorld initialState (mkStorage (Some (lit "[{")) true (fun _ => true))
    sampleClock 0 [] [].

(** A log of 30 items, stamped 0 (newest) to 29 (oldest). *)
Definition oldItem (n : nat) : HistoryItem.t :=
  HistoryItem.mk (show_nat n) HistoryItem.auto (N.of_nat n)
    sampleRows DEFAULT_SETTINGS [].

Definition fullLogWorld : World :=
  mkWorld
    (mkState sampleRows DEFAULT_SETTINGS [] IDLE None None false
       (map oldItem (seq 0 30)))
    (mkStorage None true (fun _ => true))
    sampleClock 0 [] [].

(** A session with a log of two items, and the same with a clock that
    stands still. *)
Definition smallLogWorld : World :=
  mkWorld
    (mkState sampleRows DEFAULT_SETTINGS [sampleScene; otherScene] COMPLETE
       None (Some settingsTwo) false [oldItem 0; oldItem 1])
    (mkStorage None true (fun _ => true))
    sampleClock 0 [] [].

Definition stoppedClockWorld : World :=
  mkWorld
    (mkState sampleRows DEFAULT_SETTINGS [sampleScene; otherScene] COMPLETE
       None (Some settingsTwo) false [oldItem 0; oldItem 1])
    (mkStorage None true (fun _ => true))
    (fun _ => 1700000000000%N) 0 [] [].

(** The item a first "Save All" of [smallLogWorld] builds, and a parser
    that knows the payload of the log that save writes. *)
Definition firstSnapshot : HistoryItem.t :=
  Spec.snapshot smallLogWorld [sampleScene; otherScene] sampleRows settingsTwo
    HistoryItem.all.

Definition replayParse (text : jsstring) : completion (list HistoryItem.t) :=
  if decide (text = lit "3")
  then Normal [firstSnapshot; oldItem 0; oldItem 1]
  else Throw SyntaxError.

(** A reply carrying one member for each name the card shows. *)
Definition regeneratedData : SceneData.partial :=
  SceneData.mkPartial None None None None
    (Some (lit "closer")) (Some (lit "closer"))
    (Some [samplePromptSet "close"; samplePromptSet "closer";
           samplePromptSet "closest"; samplePromptSet "wide"])
    None.

Definition grantedRequest :
    jsstring -> GenerationSettings.t -> Z -> completion SceneData.partial :=
  fun _ _ _ => Normal regeneratedData.

End Samples.

(* ===================================================================== *)
(** * Properties *)
(* ===================================================================== *)

(** ** Facts about the JavaScript fragment *)

Module JSFacts.
Import JS.

Lemma bind_Normal {A B} (a : A) (f : A -> completion B) :
  (Normal a ≫= f) = f a.
Proof. reflexivity. Qed.


Lemma mret_Normal {A} (a : A) : mret a = Normal a.
Proof. reflexivity. Qed.

Lemma truthy_not_nullish v : truthy v = true -> nullish v = false.
Proof. by destruct v. Qed.

Lemma get_prop_field v k :
  nullish v = false -> k ≠ lit "length" -> get_prop v k = Normal (field v k).
Proof.
  intros Hv Hk. destruct v; simpl in *; try done; by rewrite decide_False.
Qed.

Lemma get_prop_nullish v k : nullish v = true -> get_prop v k = Throw TypeError.
Proof. by destruct v. Qed.

Lemma get_prop_returns v k : nullish v = false -> returns (get_prop v k).
Proof.
  intros Hv. unfold returns.
  destruct v; simpl in *; try done; try case_decide; eauto.
Qed.

(** A callback that always returns maps every element, in order. *)
Lemma array_map_returns {A B} (f : A -> nat -> completion B) (l : list A) i :
  Forall (fun x => forall j, returns (f x j)) l ->
  exists out, array_map f l i = Normal out
    /\ List.length out = List.length l
    /\ forall j x, l !! j = Some x ->
         exists y, out !! j = Some y /\ f x (i + j) = Normal y.
Proof.
  intros Hall. revert i. induction Hall as [|x r Hx _ IH]; intros i.
  - exists []. repeat split. intros j x Hj. by rewrite lookup_nil in Hj.
  - destruct (Hx i) as [y Hy]. destruct (IH (S i)) as (ys & Hys & Hlen & Hnth).
    exists (y :: ys). simpl. rewrite Hy. simpl. rewrite Hys. simpl.
    repeat split; [by rewrite Hlen|].
    intros [|j] x' Hj; simpl in *.
    + injection Hj as <-. exists y. by rewrite Nat.add_0_r.
    + destruct (Hnth j x' Hj) as (y' & ? & Hf). exists y'. split; [done|].
      by rewrite Nat.add_succ_r.
Qed.

(** A callback whose only failure is [e] fails with [e] as soon as one
    element makes it fail. *)
Lemma array_map_throws {A B} (f : A -> nat -> completion B) (l : list A) i e :
  (forall x j, returns (f x j) \/ f x j = Throw e) ->
  Exists (fun x => forall j, f x j = Throw e) l ->
  array_map f l i = Throw e.
Proof.
  intros Hf Hex. revert i. induction Hex as [x r Hx|x r _ IH]; intros i; simpl.
  - by rewrite Hx.
  - destruct (Hf x i) as [[y ->]| ->]; [|done]. simpl. by rewrite IH.
Qed.

End JSFacts.

(** ** The response reconciler *)

Module Reconciler.
Import JS JSFacts GeminiService Spec Samples.

Lemma or_else_not_nullish a l : nullish (or_else a (VArr l)) = false.
Proof.
  unfold or_else. destruct (truthy a) eqn:Ha; [by apply truthy_not_nullish|done].
Qed.

(** On an element that is neither [null] nor [undefined] the callback
    returns the object literal, member by member. *)
Lemma sceneOfReply_object settings now scene index :
  nullish scene = false ->
  sceneOfReply settings now scene index =
    Normal (object_literal
      [ Member (lit "id") (sceneId now index);
        Member (lit "imageCount") (finalCount settings scene);
        Member (lit "aiSuggestedCount") (field scene (lit "suggestedImageCount"));
        Spread scene;
        Member (lit "prompts") (finalPrompts scene) ]).
Proof.
  intros Hs. unfold sceneOfReply, finalCount, finalPrompts, lengthOf.
  rewrite !(get_prop_field scene) by done.
  destruct (get_prop_returns (or_else (field scene (lit "prompts")) (VArr []))
              (lit "length") (or_else_not_nullish _ _)) as [n Hn].
  destruct (GenerationSettings.defaultImageCount settings =? 0)%Z;
    rewrite ?mret_Normal, !bind_Normal, Hn, ?mret_Normal, !bind_Normal;
    reflexivity.
Qed.

(** On [null] (or [undefined]) the first property read throws. *)
Lemma sceneOfReply_nullish settings now scene index :
  nullish scene = true ->
  sceneOfReply settings now scene index = Throw TypeError.
Proof.
  intros Hs. unfold sceneOfReply.
  rewrite !(get_prop_nullish scene) by done.
  by destruct (GenerationSettings.defaultImageCount settings =? 0)%Z.
Qed.

Lemma sceneOfReply_total settings now scene index :
  returns (sceneOfReply settings now scene index)
  \/ sceneOfReply settings now scene index = Throw TypeError.
Proof.
  destruct (nullish scene) eqn:Hs.
  - right. by apply sceneOfReply_nullish.
  - left. rewrite sceneOfReply_object by done. by eexists.
Qed.

Lemma finalPrompts_array scene l :
  field scene (lit "prompts") = VArr l -> l ≠ [] -> finalPrompts scene = VArr l.
Proof.
  intros Hp Hl. unfold finalPrompts, lengthOf. rewrite Hp. simpl.
  destruct l; [done|]. reflexivity.
Qed.

Lemma finalPrompts_sentinel scene :
  truthy (field scene (lit "prompts")) = false
  \/ field scene (lit "prompts") = VArr [] ->
  finalPrompts scene = VArr [sentinel].
Proof.
  unfold finalPrompts, lengthOf, or_else. by intros [-> | ->].
Qed.

(** The count member of a produced scene, in full: a count member of the
    reply element wins over the computed one. *)
Lemma imageCount_member settings now scene index :
  nullish scene = false ->
  exists out,
    sceneOfReply settings now scene index = Normal (VObj out)
    /\ out !! lit "imageCount"
       = Some (default (finalCount settings scene)
                 (own_props scene !! lit "imageCount")).
Proof.
  intros Hs. eexists. split; [by apply sceneOfReply_object|].
  cbn [fold_left add_member]. unfold define, spread.
  rewrite lookup_insert_ne by done.
  destruct (own_props scene !! lit "imageCount") as [v|] eqn:Hown.
  - by rewrite (lookup_union_Some_l _ _ _ v).
  - rewrite lookup_union_r by done.
    rewrite lookup_insert_ne by done. by rewrite lookup_insert_eq.
Qed.

(** ** C2 *)

(** C2 (as amended).  For every reply scene element that is not [null] and
    carries no [imageCount] member of its own, and for every settings, the
    produced scene's [imageCount] is the reply's [suggestedImageCount] when
    [settings.defaultImageCount] is 0 (1 when that member is absent or
    falsy), and [settings.defaultImageCount] itself otherwise, whatever the
    suggested count and the prompts are. *)
Theorem imageCount_of_reconciled_scene settings now scene index :
  nullish scene = false ->
  own_props scene !! lit "imageCount" = None ->
  exists out,
    sceneOfReply settings now scene index = Normal (VObj out)
    /\ out !! lit "imageCount" =
         Some (if (GenerationSettings.defaultImageCount settings =? 0)%Z
               then (if truthy (field scene (lit "suggestedImageCount"))
                     then field scene (lit "suggestedImageCount")
                     else VNum 1)
               else VNum (GenerationSettings.defaultImageCount settings)).
Proof.
  intros Hs Hown.
  destruct (imageCount_member settings now scene index Hs) as (out & Hout & Hc).
  exists out. split; [exact Hout|]. rewrite Hc, Hown. reflexivity.
Qed.

(** The theorem at the two settings of the specification's example: a
    suggested count of 3 gives 3 under "AI Auto" and 2 under a default of 2. *)
Lemma imageCount_of_reconciled_scene_witness :
  (nullish replyScene = false
   /\ own_props replyScene !! lit "imageCount" = None)
  /\ (exists out,
        sceneOfReply settingsAuto sampleNow replyScene 0 = Normal (VObj out)
        /\ out !! lit "imageCount" = Some (VNum 3))
  /\ (exists out,
        sceneOfReply settingsTwo sampleNow replyScene 0 = Normal (VObj out)
        /\ out !! lit "imageCount" = Some (VNum 2)).
Proof.
  split; [split; vm_compute; reflexivity|].
  split.
  - exact (imageCount_of_reconciled_scene settingsAuto sampleNow replyScene 0
             eq_refl eq_refl).
  - exact (imageCount_of_reconciled_scene settingsTwo sampleNow replyScene 0
             eq_refl eq_refl).
Defined.

(** C2 as stated fails: with [defaultImageCount = 2], a reply element that
    carries [imageCount: 7] yields a scene whose [imageCount] is 7, because
    [...scene] comes after [imageCount: finalCount] in the object literal. *)
Lemma reply_imageCount_overrides_settings :
  GenerationSettings.defaultImageCount settingsTwo = 2%Z
  /\ exists out,
       sceneOfReply settingsTwo sampleNow replySceneWithCount 0
         = Normal (VObj out)
       /\ out !! lit "imageCount" = Some (VNum 7).
Proof.
  split; [reflexivity|].
  eexists. split; [by apply sceneOfReply_object|].
  vm_compute. reflexivity.
Qed.

(** ** C3 *)

(** The sentinel carries the four fixed markers. *)
Lemma sentinel_markers :
  field sentinel (lit "t2iEn") = VStr (lit "Error generating prompt")
  /\ field sentinel (lit "t2iZh")
       = VStr [0x751f; 0x6210; 0x63d0; 0x793a; 0x8bcd; 0x9519; 0x8bef]%N
  /\ field sentinel (lit "i2vEn") = VStr (lit "Error")
  /\ field sentinel (lit "i2vZh") = VStr [0x9519; 0x8bef]%N.
Proof. repeat split; vm_compute; reflexivity. Qed.

(** The prompts member of a produced scene, in full. *)
Lemma prompts_member settings now scene index :
  nullish scene = false ->
  exists out,
    sceneOfReply settings now scene index = Normal (VObj out)
    /\ out !! lit "prompts" = Some (finalPrompts scene).
Proof.
  intros Hs. eexists. split; [by apply sceneOfReply_object|].
  cbn [fold_left add_member]. unfold define. by rewrite lookup_insert_eq.
Qed.

(** C3 (as amended).  For every reply scene element that is not [null] and
    whose [prompts] member is absent, falsy or an array: the produced
    scene's [prompts] is that array itself when it is non-empty, and the
    one-element list holding the sentinel when it is empty or absent; in
    both cases it is a non-empty list. *)
Theorem prompts_of_reconciled_scene settings now scene index :
  nullish scene = false ->
  truthy (field scene (lit "prompts")) = false
  \/ isArray (field scene (lit "prompts")) = true ->
  exists out l,
    sceneOfReply settings now scene index = Normal (VObj out)
    /\ out !! lit "prompts" = Some (VArr l)
    /\ l ≠ []
    /\ (forall l0, field scene (lit "prompts") = VArr l0 -> l0 ≠ [] -> l = l0)
    /\ (truthy (field scene (lit "prompts")) = false
        \/ field scene (lit "prompts") = VArr [] -> l = [sentinel]).
Proof.
  intros Hs Hp.
  destruct (prompts_member settings now scene index Hs) as (out & Hout & Hmem).
  assert (Hcases : (truthy (field scene (lit "prompts")) = false
                    \/ field scene (lit "prompts") = VArr [])
                   \/ exists x r, field scene (lit "prompts") = VArr (x :: r)).
  { destruct Hp as [Hp|Hp]; [by left; left|].
    destruct (field scene (lit "prompts")) as [| | | | |[|x r]|]; try done.
    - by left; right.
    - right. by exists x, r. }
  destruct Hcases as [Hempty|(x & r & Hxr)].
  - exists out, [sentinel].
    rewrite (finalPrompts_sentinel scene Hempty) in Hmem.
    split; [exact Hout|]. split; [exact Hmem|]. split; [done|]. split; [|done].
    intros l0 Hl0 Hne. destruct Hempty as [Hf|Hnil].
    + rewrite Hl0 in Hf. done.
    + rewrite Hl0 in Hnil. by injection Hnil as ->.
  - exists out, (x :: r).
    rewrite (finalPrompts_array scene (x :: r) Hxr) in Hmem by done.
    split; [exact Hout|]. split; [exact Hmem|]. split; [done|]. split.
    + intros l0 Hl0 _. rewrite Hxr in Hl0. by injection Hl0.
    + intros [Hf|Hnil]; [by rewrite Hxr in Hf | by rewrite Hxr in Hnil].
Qed.

(** The theorem at a reply whose [prompts] is the empty array: the scene
    gets the sentinel alone. *)
Lemma prompts_of_reconciled_scene_witness :
  (nullish replySceneNoPrompts = false
   /\ isArray (field replySceneNoPrompts (lit "prompts")) = true)
  /\ exists out,
       sceneOfReply settingsAuto sampleNow replySceneNoPrompts 0
         = Normal (VObj out)
       /\ out !! lit "prompts" = Some (VArr [sentinel]).
Proof.
  split; [split; vm_compute; reflexivity|].
  destruct (prompts_of_reconciled_scene settingsAuto sampleNow
              replySceneNoPrompts 0 eq_refl (or_intror eq_refl))
    as (out & l & Hout & Hl & _ & _ & Hsent).
  exists out. split; [exact Hout|].
  rewrite Hl. rewrite (Hsent (or_intror eq_refl)). reflexivity.
Defined.

(** C3 as stated fails: a reply element whose [prompts] is one prompt set
    instead of an array yields a scene whose [prompts] is that object, which
    is no list (an object is truthy and its [length] is [undefined], not
    0), so no sentinel is substituted. *)
Lemma non_array_prompts_pass_through :
  exists out,
    sceneOfReply settingsAuto sampleNow replySceneOnePrompt 0
      = Normal (VObj out)
    /\ out !! lit "prompts" = Some (samplePrompt "wide")
    /\ isArray (samplePrompt "wide") = false.
Proof.
  destruct (prompts_member settingsAuto sampleNow replySceneOnePrompt 0 eq_refl)
    as (out & Hout & Hmem).
  exists out. split; [exact Hout|]. split; [|reflexivity].
  rewrite Hmem. vm_compute. reflexivity.
Qed.

(** ** C4 *)

(** Past the read of [parsed.scenes], the call is decided by that member. *)
Lemma generateFullScriptAnalysis_cases parsed settings now :
  nullish parsed = false ->
  generateFullScriptAnalysis parsed settings now =
    match field parsed (lit "scenes") with
    | VArr l => array_map (sceneOfReply settings now) l 0
    | _ => Throw invalid_structure
    end.
Proof.
  intros Hp. unfold generateFullScriptAnalysis.
  rewrite get_prop_field by done. rewrite bind_Normal.
  destruct (field parsed (lit "scenes")) as [| |[]|z|[|]| |]; try reflexivity.
  simpl. by destruct (z =? 0)%Z.
Qed.

(** What the call does on an array of scene elements. *)
Lemma generateFullScriptAnalysis_array parsed settings now l :
  nullish parsed = false ->
  field parsed (lit "scenes") = VArr l ->
  (Forall (fun s => nullish s = false) l ->
   exists out,
     generateFullScriptAnalysis parsed settings now = Normal out
     /\ List.length out = List.length l
     /\ forall j s, l !! j = Some s ->
          exists o, out !! j = Some o
            /\ sceneOfReply settings now s j = Normal o)
  /\ (Exists (fun s => nullish s = true) l ->
      generateFullScriptAnalysis parsed settings now = Throw TypeError).
Proof.
  intros Hp Hl. rewrite generateFullScriptAnalysis_cases by done.
  rewrite Hl. split.
  - intros Hall.
    destruct (array_map_returns (sceneOfReply settings now) l 0) as
      (out & Hout & Hlen & Hnth).
    { eapply Forall_impl; [exact Hall|]. intros s Hs j.
      rewrite sceneOfReply_object by done. by eexists. }
    exists out. repeat split; [done..|]. intros j s Hj.
    destruct (Hnth j s Hj) as (o & ? & ?). by exists o.
  - intros Hex. apply array_map_throws.
    + intros s j. apply sceneOfReply_total.
    + eapply Exists_impl; [exact Hex|]. intros s Hs j.
      by apply sceneOfReply_nullish.
Qed.

(** C4 (as amended).  The reconciler raises its malformed-response error
    exactly when the parsed reply is not [null] and its [scenes] member is
    absent or not an array.  When [scenes] is an array without a [null]
    element, it returns one scene per element, in order, each the result
    of the callback on that element; when the array has a [null] element,
    or the reply itself is [null], it fails with a [TypeError] instead. *)
Theorem generateFullScriptAnalysis_outcome parsed settings now :
  (generateFullScriptAnalysis parsed settings now = Throw invalid_structure
   <-> nullish parsed = false
       /\ isArray (field parsed (lit "scenes")) = false)
  /\ (forall l,
        nullish parsed = false ->
        field parsed (lit "scenes") = VArr l ->
        (Forall (fun s => nullish s = false) l ->
         exists out,
           generateFullScriptAnalysis parsed settings now = Normal out
           /\ List.length out = List.length l
           /\ forall j s, l !! j = Some s ->
                exists o, out !! j = Some o
                  /\ sceneOfReply settings now s j = Normal o)
        /\ (Exists (fun s => nullish s = true) l ->
            generateFullScriptAnalysis parsed settings now = Throw TypeError))
  /\ (nullish parsed = true ->
      generateFullScriptAnalysis parsed settings now = Throw TypeError).
Proof.
  assert (Hnull : nullish parsed = true ->
                  generateFullScriptAnalysis parsed settings now = Throw TypeError).
  { intros Hp. unfold generateFullScriptAnalysis.
    by rewrite get_prop_nullish. }
  split; [|split; [apply generateFullScriptAnalysis_array|exact Hnull]].
  split.
  - intros Hthrow. destruct (nullish parsed) eqn:Hp.
    + rewrite Hnull in Hthrow by done. done.
    + split; [done|].
      destruct (field parsed (lit "scenes")) as [| | | | |l|] eqn:Hl; try done.
      destruct (generateFullScriptAnalysis_array parsed settings now l Hp Hl)
        as [Hok Hbad].
      destruct (decide (Forall (fun s => nullish s = false) l)) as [Hall|Hnot].
      * destruct (Hok Hall) as (out & Hout & _). congruence.
      * apply not_Forall_Exists in Hnot; [|apply _].
        rewrite Hbad in Hthrow; [done|].
        eapply Exists_impl; [exact Hnot|]. intros s Hs. simpl in Hs.
        by destruct (nullish s).
  - intros [Hp Hnot]. rewrite generateFullScriptAnalysis_cases by done.
    by destruct (field parsed (lit "scenes")).
Qed.

(** The theorem at [{"scenes": [replyScene]}], which gives one scene, and
    at [{}], which is malformed. *)
Lemma generateFullScriptAnalysis_outcome_witness :
  (exists out,
     generateFullScriptAnalysis replyOneScene settingsAuto sampleNow = Normal out
     /\ List.length out = 1)
  /\ generateFullScriptAnalysis replyEmptyObject settingsAuto sampleNow
     = Throw invalid_structure.
Proof.
  split.
  - destruct (generateFullScriptAnalysis_outcome replyOneScene settingsAuto
                sampleNow) as (_ & Harr & _).
    destruct (Harr [replyScene] eq_refl eq_refl) as [Hok _].
    destruct Hok as (out & Hout & Hlen & _); [by repeat constructor|].
    exists out. split; [exact Hout|exact Hlen].
  - apply (generateFullScriptAnalysis_outcome replyEmptyObject settingsAuto
             sampleNow).
    split; reflexivity.
Defined.

(** C4 as stated fails: on the reply [{"scenes": [null]}] the member is an
    array, yet the call raises (a [TypeError], from the property reads on
    [null]) instead of returning a scene list; and a reply that is [null]
    itself has no [scenes] member, yet what is raised is that [TypeError],
    not the malformed-response error. *)
Lemma null_scene_element_raises :
  field replyNullScene (lit "scenes") = VArr [VNull]
  /\ generateFullScriptAnalysis replyNullScene settingsTwo sampleNow
       = Throw TypeError
  /\ generateFullScriptAnalysis replyNullScene settingsAuto sampleNow
       = Throw TypeError
  /\ generateFullScriptAnalysis VNull settingsAuto sampleNow = Throw TypeError.
Proof. repeat split; vm_compute; reflexivity. Qed.

End Reconciler.

(** ** The prompt slots *)

Module Slots.
Import JS JSFacts ExportService Samples.

Lemma at_index_lookup {A} (l : list A) (i : Z) :
  (0 <= i)%Z -> at_index l i = l !! Z.to_nat i.
Proof.
  intros Hi. unfold at_index. destruct (i <? 0)%Z eqn:E; [lia|done].
Qed.

Lemma at_index_last {A} (l : list A) :
  l ≠ [] -> at_index l (Z.of_nat (List.length l) - 1) = last l.
Proof.
  intros Hl. destruct l as [|x r]; [done|].
  rewrite at_index_lookup by (simpl; lia).
  rewrite last_lookup. f_equal. simpl. lia.
Qed.

(** ** C1 *)

(** C1.  For every scene whose prompts list is non-empty and every slot
    index [i] with [0 <= i < imageCount], the slot selection yields a prompt
    set: [prompts[i]] when [i < prompts.length], the last element of
    [prompts] when [i >= prompts.length]. *)
Theorem slotPrompt_defined (scene : SceneData.t) (i : Z) :
  SceneData.prompts scene ≠ [] ->
  (0 <= i < SceneData.imageCount scene)%Z ->
  exists p,
    slotPrompt scene i = Some p
    /\ ((i < Z.of_nat (List.length (SceneData.prompts scene)))%Z ->
        SceneData.prompts scene !! Z.to_nat i = Some p)
    /\ ((Z.of_nat (List.length (SceneData.prompts scene)) <= i)%Z ->
        last (SceneData.prompts scene) = Some p).
Proof.
  intros Hne [Hi _]. unfold slotPrompt.
  rewrite at_index_lookup by done. rewrite at_index_last by done.
  destruct (decide (Z.to_nat i < List.length (SceneData.prompts scene))) as [Hlt|Hge].
  - destruct (lookup_lt_is_Some_2 _ _ Hlt) as [p Hp].
    exists p. rewrite Hp. simpl.
    split; [done|]. split; [done|]. intros Hge. lia.
  - rewrite (lookup_ge_None_2 (SceneData.prompts scene) (Z.to_nat i)) by lia.
    simpl.
    destruct (last (SceneData.prompts scene)) as [p|] eqn:Hlast.
    + exists p. split; [done|]. split; [|done]. intros Hlt. lia.
    + apply last_None in Hlast. done.
Qed.

(** The theorem at slot 3 of a scene with two prompts: the last prompt. *)
Lemma slotPrompt_defined_witness :
  (SceneData.prompts sampleScene ≠ []
   /\ (0 <= 3 < SceneData.imageCount sampleScene)%Z)
  /\ slotPrompt sampleScene 3 = Some (samplePromptSet "close").
Proof.
  assert (Hne : SceneData.prompts sampleScene ≠ []) by done.
  assert (Hi : (0 <= 3 < SceneData.imageCount sampleScene)%Z) by (simpl; lia).
  split; [done|].
  destruct (slotPrompt_defined sampleScene 3 Hne Hi) as (p & Hp & _ & Hlast).
  rewrite Hp. rewrite <- Hlast by (simpl; lia). reflexivity.
Defined.

End Slots.

(** ** The script text *)

Module ScriptText.
Import JS InputSection Spec Samples.

Lemma dropWhile_nil {A} (p : A -> bool) (l : list A) :
  dropWhile p l = [] <-> forallb p l = true.
Proof.
  induction l as [|x r IH]; simpl; [done|].
  destruct (p x); simpl; [exact IH|]. split; discriminate.
Qed.

Lemma dropWhile_head {A} (p : A -> bool) (l : list A) x r :
  dropWhile p l = x :: r -> p x = false.
Proof.
  induction l as [|y l IH]; simpl; [done|].
  destruct (p y) eqn:Hy; [exact IH|]. by intros [= -> _].
Qed.

Lemma forallb_reverse {A} (p : A -> bool) (l : list A) :
  forallb p (reverse l) = forallb p l.
Proof.
  induction l as [|x r IH]; [done|].
  rewrite reverse_cons, forallb_app, IH. simpl. destruct (p x), (forallb p r); done.
Qed.

(** [s.trim()] is empty exactly when [s] is blank. *)
Lemma trim_nil (s : jsstring) : trim s = [] <-> blank s = true.
Proof.
  unfold trim, trimEnd, trimStart, blank. split.
  - intros H. apply (f_equal reverse) in H. rewrite reverse_involutive in H.
    change (reverse []) with (@nil N) in H.
    apply dropWhile_nil in H. rewrite forallb_reverse in H.
    destruct (dropWhile is_whitespace s) as [|x r] eqn:Hd.
    + by apply dropWhile_nil.
    + apply dropWhile_head in Hd. simpl in H. by rewrite Hd in H.
  - intros H. apply dropWhile_nil in H. by rewrite H.
Qed.

Lemma nonempty_trim (s : jsstring) : nonempty (trim s) = negb (blank s).
Proof.
  destruct (blank s) eqn:Hb.
  - apply trim_nil in Hb. by rewrite Hb.
  - destruct (trim s) eqn:Ht; [|done].
    apply trim_nil in Ht. congruence.
Qed.

Lemma renderRow_line r : renderRow r = line r.
Proof.
  unfold renderRow, line. rewrite nonempty_trim.
  destruct (blank (ScriptRow.timestamp r)); simpl; [done|].
  by rewrite <- !app_assoc.
Qed.

Lemma filter_sublist {A} (f : A -> bool) (l : list A) :
  List.filter f l `sublist_of` l.
Proof.
  induction l as [|x r IH]; simpl; [constructor|].
  destruct (f x); by constructor.
Qed.

Lemma split_free sep (x : jsstring) :
  Forall (fun c => c ≠ sep) x -> split sep x = [x].
Proof.
  induction 1 as [|c r Hc _ IH]; simpl; [done|].
  destruct (N.eqb_spec c sep); [done|]. by rewrite IH.
Qed.

Lemma split_app_sep sep (x rest : jsstring) :
  Forall (fun c => c ≠ sep) x ->
  split sep (x ++ sep :: rest) = x :: split sep rest.
Proof.
  induction 1 as [|c r Hc _ IH]; simpl.
  - by rewrite N.eqb_refl.
  - destruct (N.eqb_spec c sep); [done|]. by rewrite IH.
Qed.

(** Splitting a joined text gives the lines back when none of them holds
    the separator. *)
Lemma split_join sep (x : jsstring) (r : list jsstring) :
  Forall (Forall (fun c => c ≠ sep)) (x :: r) ->
  split sep (join [sep] (x :: r)) = x :: r.
Proof.
  revert x. induction r as [|y r IH]; intros x Hall; simpl.
  - rewrite app_nil_r. apply split_free. by inversion Hall.
  - inversion Hall as [|? ? Hx Hr]; subst.
    rewrite split_app_sep by done.
    f_equal. apply (IH y Hr).
Qed.

(** ** C5 *)

(** C5 (as amended).  For every row sequence, the script text of the
    request builder is the renderings of the rows whose content is not
    blank, joined by one line feed: the kept rows are a subsequence of the
    rows (original order) made of exactly the rows with non-blank content,
    and each is rendered as [[timestamp] content] when its timestamp is not
    blank and as the bare content otherwise.  The text has one row per line
    when a row is kept and no rendering holds a line feed itself: then
    splitting the text at line feeds gives back the renderings of the kept
    rows. *)
Theorem scriptText_rows (rows : list ScriptRow.t) :
  scriptText rows = join [10%N] (map line (keptRows rows))
  /\ keptRows rows `sublist_of` rows
  /\ (forall r, r ∈ keptRows rows
               <-> r ∈ rows /\ blank (ScriptRow.content r) = false)
  /\ (keptRows rows ≠ [] ->
      Forall (fun r => Forall (fun c => c ≠ 10%N) (line r)) (keptRows rows) ->
      split 10 (scriptText rows) = map line (keptRows rows)).
Proof.
  assert (Heq : scriptText rows = join [10%N] (map line (keptRows rows))).
  { unfold scriptText, keptRows. f_equal.
    rewrite (List.filter_ext _ (fun r => negb (blank (ScriptRow.content r))))
      by (intros r; apply nonempty_trim).
    apply map_ext. intros r. apply renderRow_line. }
  split; [exact Heq|]. split; [apply filter_sublist|]. split.
  - intros r. unfold keptRows. rewrite !list_elem_of_In, filter_In.
    by rewrite negb_true_iff.
  - intros Hne Hfree. rewrite Heq.
    destruct (keptRows rows) as [|x r]; [done|]. simpl map.
    apply split_join. simpl. by apply Forall_fmap in Hfree.
Qed.

(** The theorem at three rows, the second blank and the third without a
    timestamp: two lines, the first with its timestamp in brackets. *)
Lemma scriptText_rows_witness :
  scriptText sampleRows
  = lit "[00:00] A hero walks into a bar." ++ [10%N] ++ lit "He orders a drink."
  /\ split 10 (scriptText sampleRows)
     = [lit "[00:00] A hero walks into a bar."; lit "He orders a drink."].
Proof.
  destruct (scriptText_rows sampleRows) as (Heq & _ & _ & Hsplit).
  split.
  - rewrite Heq. vm_compute. reflexivity.
  - rewrite Hsplit.
    + vm_compute. reflexivity.
    + vm_compute. discriminate.
    + apply (bool_decide_unpack _). vm_compute. reflexivity.
Defined.

(** C5 as stated fails: the content box is a text area, and a content
    typed on two lines is one kept row and two lines of the script text. *)
Lemma multiline_content_spans_lines :
  List.length (keptRows multilineRows) = 1
  /\ scriptText multilineRows = lit "a" ++ [10%N] ++ lit "b"
  /\ List.length (split 10 (scriptText multilineRows)) = 2.
Proof. repeat split; vm_compute; reflexivity. Qed.

End ScriptText.

(** ** The scene store *)

Module SceneStore.
Import JS App Samples.

(** What [mapScene] does to the scene at each position. *)
Lemma mapScene_lookup id f prev j s :
  prev !! j = Some s ->
  mapScene id f prev !! j
  = Some (if decide (SceneData.id s = id) then f s else s).
Proof. intros Hj. unfold mapScene. by rewrite list_lookup_fmap, Hj. Qed.

Lemma mapScene_length id f prev :
  List.length (mapScene id f prev) = List.length prev.
Proof. unfold mapScene. by rewrite length_map. Qed.

Lemma mapScene_compose id f g prev :
  (forall s, SceneData.id (f s) = SceneData.id s) ->
  mapScene id g (mapScene id f prev)
  = mapScene id (fun s => g (f s)) prev.
Proof.
  intros Hid. unfold mapScene. rewrite map_map. apply map_ext. intros s.
  destruct (decide (SceneData.id s = id)) as [Hs|Hs].
  - rewrite decide_True; [done|]. by rewrite Hid.
  - by rewrite decide_False.
Qed.

Lemma mapScene_absent id f prev :
  Forall (fun s => SceneData.id s ≠ id) prev -> mapScene id f prev = prev.
Proof.
  unfold mapScene. induction 1 as [|s r Hs _ IH]; simpl; [done|].
  rewrite decide_False by done. by rewrite IH.
Qed.

Lemma find_none_absent id (l : list SceneData.t) :
  List.find (fun s => bool_decide (SceneData.id s = id)) l = None ->
  Forall (fun s => SceneData.id s ≠ id) l.
Proof.
  induction l as [|s r IH]; simpl; [constructor|].
  case_bool_decide as Hs; [done|]. intros Hr. constructor; [done|by apply IH].
Qed.

(** ** C10 *)

(** C10.  For every scene list, target id and count, the manual count
    update returns a list of the same length in which, position by
    position, a scene with the target id has [imageCount] set to the count
    and its seven other members unchanged, and a scene with another id is
    unchanged; the list is unchanged when no scene has the target id, and
    nothing else of the state is touched. *)
Theorem handleUpdateImageCount_frame (id : jsstring) (count : Z) (w : World) :
  let w' := (handleUpdateImageCount id count w).2 in
  (handleUpdateImageCount id count w).1 = Normal tt
  /\ List.length (scenes (state w')) = List.length (scenes (state w))
  /\ (forall j s, scenes (state w) !! j = Some s ->
        exists s', scenes (state w') !! j = Some s'
          /\ (SceneData.id s ≠ id -> s' = s)
          /\ (SceneData.id s = id ->
                SceneData.imageCount s' = count
                /\ SceneData.id s' = SceneData.id s
                /\ SceneData.originalScript s' = SceneData.originalScript s
                /\ SceneData.aiSuggestedCount s' = SceneData.aiSuggestedCount s
                /\ SceneData.reasoningEn s' = SceneData.reasoningEn s
                /\ SceneData.reasoningZh s' = SceneData.reasoningZh s
                /\ SceneData.prompts s' = SceneData.prompts s
                /\ SceneData.isRegenerating s' = SceneData.isRegenerating s))
  /\ (Forall (fun s => SceneData.id s ≠ id) (scenes (state w)) ->
        scenes (state w') = scenes (state w))
  /\ rows (state w') = rows (state w)
  /\ settings (state w') = settings (state w)
  /\ history (state w') = history (state w)
  /\ storage w' = storage w.
Proof.
  simpl. split; [done|]. split; [apply mapScene_length|]. split.
  - intros j s Hj. eexists. split; [by apply mapScene_lookup|].
    destruct (decide (SceneData.id s = id)); split; done.
  - split; [apply mapScene_absent|]. done.
Qed.

(** The theorem on a store of two scenes: raising the count of the second
    to 8 leaves the first as it is, and an unknown id changes nothing. *)
Lemma handleUpdateImageCount_frame_witness :
  (exists s',
     scenes (state (handleUpdateImageCount (lit "scene-1700000000000-1") 8
                      busyWorld).2) !! 1 = Some s'
     /\ SceneData.imageCount s' = 8%Z
     /\ SceneData.prompts s' = SceneData.prompts otherScene)
  /\ scenes (state (handleUpdateImageCount (lit "scene-0") 8 busyWorld).2)
     = scenes (state busyWorld).
Proof.
  split.
  - destruct (handleUpdateImageCount_frame (lit "scene-1700000000000-1") 8
                busyWorld) as (_ & _ & Hpos & _).
    destruct (Hpos 1 otherScene eq_refl) as (s' & Hs' & _ & Hsame).
    destruct (Hsame eq_refl) as (Hcount & _ & _ & _ & _ & _ & Hprompts & _).
    exists s'. split; [exact Hs'|]. split; [exact Hcount|exact Hprompts].
  - destruct (handleUpdateImageCount_frame (lit "scene-0") 8 busyWorld)
      as (_ & _ & _ & Habsent & _).
    apply Habsent. apply (bool_decide_unpack _). vm_compute. reflexivity.
Defined.

(** ** C8 *)

(** The state after a call whose service request fails: the scenes with
    the flag of the target cleared, everything else as before. *)
Lemma handleRegenerateScene_failed regenerateScene id count w active :
  activeSettings (state w) = Some active ->
  (forall s,
     List.find (fun s => bool_decide (SceneData.id s = id)) (scenes (state w))
       = Some s ->
     exists e, regenerateScene (SceneData.originalScript s) active count = Throw e) ->
  (handleRegenerateScene regenerateScene id count w).1 = Normal tt
  /\ state (handleRegenerateScene regenerateScene id count w).2
     = mkState (rows (state w)) (settings (state w))
         (mapScene id (withRegenerating false) (scenes (state w)))
         (status (state w)) (error (state w)) (activeSettings (state w))
         (showHistory (state w)) (history (state w))
  /\ storage (handleRegenerateScene regenerateScene id count w).2 = storage w.
Proof.
  intros Hactive Hfail.
  unfold handleRegenerateScene, mbind, action_bind, getState. simpl.
  rewrite Hactive. unfold try_catch, updateScenes, modifyState. simpl.
  destruct (List.find _ (scenes (state w))) as [s|] eqn:Hfind.
  - destruct (Hfail s eq_refl) as [e He]. unfold lift. rewrite He. simpl.
    rewrite mapScene_compose by done. by rewrite Hactive.
  - simpl. apply find_none_absent in Hfind.
    rewrite !mapScene_absent by done. by rewrite Hactive.
Qed.

(** The state after a call whose request succeeds, for comparison: the
    members the reply carries replace those of the target. *)
Lemma handleRegenerateScene_succeeded regenerateScene id count w active s data :
  activeSettings (state w) = Some active ->
  List.find (fun s => bool_decide (SceneData.id s = id)) (scenes (state w))
    = Some s ->
  regenerateScene (SceneData.originalScript s) active count = Normal data ->
  (handleRegenerateScene regenerateScene id count w).1 = Normal tt
  /\ scenes (state (handleRegenerateScene regenerateScene id count w).2)
     = mapScene id (fun s => mergeRegenerated s data) (scenes (state w)).
Proof.
  intros Hactive Hfind Hok.
  unfold handleRegenerateScene, mbind, action_bind, getState. simpl.
  rewrite Hactive. unfold try_catch, updateScenes, modifyState. simpl.
  rewrite Hfind. unfold lift. rewrite Hok. simpl.
  by rewrite mapScene_compose.
Qed.

(** C8.  When the service request of a single-scene regeneration fails,
    the handler returns normally and the scene store is the one before the
    call except for the flag: position by position, a scene with the
    target id has [isRegenerating] cleared and its seven other members
    (prompts, reasoning, [imageCount], ...) as before, a scene with another
    id is unchanged; rows, settings, status, the error cell, the active
    settings, the history and the storage are untouched. *)
Theorem regeneration_failure_keeps_scene
    (regenerateScene :
       jsstring -> GenerationSettings.t -> Z -> completion SceneData.partial)
    (id : jsstring) (count : Z) (w : World) (active : GenerationSettings.t) :
  activeSettings (state w) = Some active ->
  (forall s,
     List.find (fun s => bool_decide (SceneData.id s = id)) (scenes (state w))
       = Some s ->
     exists e, regenerateScene (SceneData.originalScript s) active count = Throw e) ->
  let w' := (handleRegenerateScene regenerateScene id count w).2 in
  (handleRegenerateScene regenerateScene id count w).1 = Normal tt
  /\ List.length (scenes (state w')) = List.length (scenes (state w))
  /\ (forall j s, scenes (state w) !! j = Some s ->
        exists s', scenes (state w') !! j = Some s'
          /\ (SceneData.id s ≠ id -> s' = s)
          /\ (SceneData.id s = id ->
                SceneData.isRegenerating s' = Some false
                /\ SceneData.id s' = SceneData.id s
                /\ SceneData.originalScript s' = SceneData.originalScript s
                /\ SceneData.imageCount s' = SceneData.imageCount s
                /\ SceneData.aiSuggestedCount s' = SceneData.aiSuggestedCount s
                /\ SceneData.reasoningEn s' = SceneData.reasoningEn s
                /\ SceneData.reasoningZh s' = SceneData.reasoningZh s
                /\ SceneData.prompts s' = SceneData.prompts s))
  /\ rows (state w') = rows (state w)
  /\ settings (state w') = settings (state w)
  /\ status (state w') = status (state w)
  /\ error (state w') = error (state w)
  /\ activeSettings (state w') = activeSettings (state w)
  /\ history (state w') = history (state w)
  /\ storage w' = storage w.
Proof.
  intros Hactive Hfail w'.
  destruct (handleRegenerateScene_failed regenerateScene id count w active
              Hactive Hfail) as (Hret & Hstate & Hstorage).
  subst w'. rewrite Hstate, Hstorage. simpl.
  split; [exact Hret|]. split; [apply mapScene_length|]. split; [|done].
  intros j s Hj. eexists. split; [by apply mapScene_lookup|].
  destruct (decide (SceneData.id s = id)); split; done.
Qed.

(** The theorem on a store of two scenes whose first is regenerated by a
    service that refuses the request: the first scene is back as it was,
    with the flag cleared, and the second is untouched. *)
Lemma regeneration_failure_keeps_scene_witness :
  activeSettings (state busyWorld) = Some DEFAULT_SETTINGS
  /\ (handleRegenerateScene refusedRequest (lit "scene-1700000000000-0") 4
        busyWorld).1 = Normal tt
  /\ scenes (state (handleRegenerateScene refusedRequest
                      (lit "scene-1700000000000-0") 4 busyWorld).2)
     = [withRegenerating false sampleScene; otherScene].
Proof.
  split; [reflexivity|].
  split; [|vm_compute; reflexivity].
  apply (regeneration_failure_keeps_scene refusedRequest
           (lit "scene-1700000000000-0") 4 busyWorld DEFAULT_SETTINGS eq_refl).
  intros s _. by eexists.
Defined.

End SceneStore.

(** ** The history store *)

Module HistoryStore.
Import JS App Spec Samples.

Section Codec.

Variable JSON_stringify : list HistoryItem.t -> jsstring.
Variable JSON_parse : jsstring -> completion (list HistoryItem.t).

(** The log is replaced in memory before the write is attempted, so the
    state after the call does not depend on the storage. *)
Lemma saveToHistory_state generatedScenes currentRows currentSettings source w :
  state (saveToHistory JSON_stringify generatedScenes currentRows
           currentSettings source w).2
  = mkState (rows (state w)) (settings (state w)) (scenes (state w))
      (status (state w)) (error (state w)) (activeSettings (state w))
      (showHistory (state w))
      (take 30 (snapshot w generatedScenes currentRows currentSettings source
                :: history (state w))).
Proof.
  unfold saveToHistory, mbind, action_bind, getState, Date_now, setHistory,
    modifyState, localStorage_setItem. simpl.
  by destruct (accepts (storage w) _).
Qed.

(** The call returns exactly when the storage takes the payload, and then
    the payload is the serialized new log. *)
Lemma saveToHistory_outcome generatedScenes currentRows currentSettings source w :
  let updated :=
    take 30 (snapshot w generatedScenes currentRows currentSettings source
             :: history (state w)) in
  let r := saveToHistory JSON_stringify generatedScenes currentRows
             currentSettings source w in
  (accepts (storage w) (JSON_stringify updated) = true ->
     r.1 = Normal tt /\ stored (storage r.2) = Some (JSON_stringify updated))
  /\ (accepts (storage w) (JSON_stringify updated) = false ->
     r.1 = Throw DOMException /\ storage r.2 = storage w).
Proof.
  unfold saveToHistory, mbind, action_bind, getState, Date_now, setHistory,
    modifyState, localStorage_setItem, snapshot. simpl.
  split; intros ->; done.
Qed.

Lemma deleteHistoryItem_outcome id w :
  let updated :=
    List.filter (fun item => negb (bool_decide (HistoryItem.id item = id)))
      (history (state w)) in
  let r := deleteHistoryItem JSON_stringify id w in
  history (state r.2) = updated
  /\ (accepts (storage w) (JSON_stringify updated) = true ->
     r.1 = Normal tt /\ stored (storage r.2) = Some (JSON_stringify updated))
  /\ (accepts (storage w) (JSON_stringify updated) = false ->
     r.1 = Throw DOMException /\ storage r.2 = storage w).
Proof.
  unfold deleteHistoryItem, mbind, action_bind, getState, setHistory,
    modifyState, localStorage_setItem. simpl.
  split; [by destruct (accepts (storage w) _)|].
  split; intros ->; done.
Qed.

(** ** C6 *)

(** C6.  For every history log, appending a snapshot puts the new item
    first, keeps the earlier items behind it in their order and cuts the
    log to at most 30 entries; on a log of 30 items the result has exactly
    30 items, the new one followed by the 29 newest of the old log, the
    oldest being dropped. *)
Theorem saveToHistory_bounded generatedScenes currentRows currentSettings
    source (w : World) :
  let w' := (saveToHistory JSON_stringify generatedScenes currentRows
               currentSettings source w).2 in
  let item := snapshot w generatedScenes currentRows currentSettings source in
  history (state w') = item :: take 29 (history (state w))
  /\ List.length (history (state w'))
     = Nat.min 30 (S (List.length (history (state w))))
  /\ List.length (history (state w')) <= 30
  /\ (forall newer oldest,
        history (state w) = newer ++ [oldest] ->
        List.length (history (state w)) = 30 ->
        history (state w') = item :: newer
        /\ List.length (history (state w')) = 30).
Proof.
  intros w' item. subst w'. rewrite saveToHistory_state. cbn [history].
  fold item.
  assert (Htake : take 30 (item :: history (state w))
                  = item :: take 29 (history (state w))) by reflexivity.
  rewrite Htake. cbn [List.length]. rewrite length_take.
  split; [done|]. split; [lia|]. split; [lia|].
  intros newer oldest Hlog Hlen. rewrite Hlog in *.
  rewrite length_app in Hlen. cbn [List.length] in Hlen.
  rewrite take_app_length' by lia. split; [done|].
  rewrite length_app. cbn [List.length]. lia.
Qed.

(** ** C7 *)

(** C7.  For every rows, settings and scenes, the item that the append
    puts at the head of the log carries them, and restoring that item (the
    user confirming) leaves exactly those rows, settings and scenes in the
    state, whatever the state was before the restore. *)
Theorem save_then_restore generatedScenes currentRows currentSettings source
    (w wBefore : World) :
  let w1 := (saveToHistory JSON_stringify generatedScenes currentRows
               currentSettings source w).2 in
  exists item rest,
    history (state w1) = item :: rest
    /\ (loadHistoryItem true item w1).1 = Normal tt
    /\ rows (state (loadHistoryItem true item w1).2) = currentRows
    /\ settings (state (loadHistoryItem true item w1).2) = currentSettings
    /\ scenes (state (loadHistoryItem true item w1).2) = generatedScenes
    /\ rows (state (loadHistoryItem true item wBefore).2) = currentRows
    /\ settings (state (loadHistoryItem true item wBefore).2) = currentSettings
    /\ scenes (state (loadHistoryItem true item wBefore).2) = generatedScenes.
Proof.
  intros w1. subst w1.
  exists (snapshot w generatedScenes currentRows currentSettings source),
         (take 29 (history (state w))).
  split; [by rewrite saveToHistory_state|].
  unfold loadHistoryItem, mbind, action_bind, setRows, setSettings,
    setActiveSettings, setScenes, updateScenes, setStatus, setShowHistory,
    modifyState, snapshot. simpl.
  by destruct (0 <? Z.of_nat (List.length generatedScenes))%Z.
Qed.

(** Declining the confirmation leaves the world as it is. *)
Lemma loadHistoryItem_declined item w :
  loadHistoryItem false item w = (Normal tt, w).
Proof. reflexivity. Qed.

(** What the two save buttons hand to the append: "Save Script" stores the
    rows and the settings of the form with no scenes; "Save All" stores the
    rows, the scenes and the settings of the last generation. *)
Lemma handleSaveScript_item w :
  history (state (handleSaveScript JSON_stringify w).2)
  = take 30 (snapshot w [] (rows (state w)) (settings (state w))
               HistoryItem.script :: history (state w)).
Proof.
  unfold handleSaveScript, alert, mbind, action_bind, getState.
  cbn beta iota.
  pose proof (saveToHistory_state [] (rows (state w)) (settings (state w))
                HistoryItem.script w) as Hst.
  cbn [fst snd] in *.
  destruct (saveToHistory JSON_stringify [] (rows (state w))
              (settings (state w)) HistoryItem.script w) as [[[]|e] w1];
    simpl in *; by rewrite Hst.
Qed.

Lemma handleSaveAll_item w active :
  activeSettings (state w) = Some active ->
  history (state (handleSaveAll JSON_stringify w).2)
  = take 30 (snapshot w (scenes (state w)) (rows (state w)) active
               HistoryItem.all :: history (state w)).
Proof.
  intros Hactive.
  unfold handleSaveAll, alert, mbind, action_bind, getState.
  cbn beta iota. rewrite Hactive.
  pose proof (saveToHistory_state (scenes (state w)) (rows (state w)) active
                HistoryItem.all w) as Hst.
  cbn [fst snd] in *.
  destruct (saveToHistory JSON_stringify (scenes (state w)) (rows (state w))
              active HistoryItem.all w) as [[[]|e] w1];
    simpl in *; by rewrite Hst.
Qed.

(** ** C9 *)

(** The load on mount when the storage can be read: it returns, and a
    payload that does not parse leaves state and storage as they were and
    logs the failure. *)
Lemma loadHistory_readable w :
  readable (storage w) = true ->
  (loadHistory JSON_parse w).1 = Normal tt
  /\ (forall text e,
        stored (storage w) = Some text -> JSON_parse text = Throw e ->
        state (loadHistory JSON_parse w).2 = state w
        /\ storage (loadHistory JSON_parse w).2 = storage w
        /\ (text ≠ [] ->
            console (loadHistory JSON_parse w).2
            = console w ++ [(lit "Failed to parse history", e)]))
  /\ (forall text log,
        stored (storage w) = Some text -> text ≠ [] ->
        JSON_parse text = Normal log ->
        history (state (loadHistory JSON_parse w).2) = log).
Proof.
  intros Hread.
  unfold loadHistory, mbind, action_bind, localStorage_getItem, try_catch,
    lift, setHistory, modifyState, console_error.
  rewrite Hread. split; [|split].
  - destruct (stored (storage w)) as [[|c text]|]; simpl; [done| |done].
    by destruct (JSON_parse (c :: text)).
  - intros text e -> Hparse. destruct text as [|c text]; simpl; [by destruct w|].
    rewrite Hparse. simpl. by destruct w.
  - intros text log -> Hne Hparse. destruct text as [|c text]; [done|]. simpl.
    by rewrite Hparse.
Qed.

(** C9 (as amended).  A stored payload that [JSON.parse] rejects is caught
    at startup, logged and treated as no history: when the storage can be
    read, the load on mount returns normally and, on such a payload, leaves
    the state - hence the empty initial log - and the storage untouched,
    and puts the failure on the console (an empty payload is not parsed
    and nothing is logged).  Failures of the store operations themselves are not contained: the
    load raises when the read raises, and append and delete return
    normally exactly when the storage accepts the new payload, raising the
    storage's exception otherwise (with the in-memory log already
    replaced). *)
Theorem persistence_failures (w : World) :
  (readable (storage w) = true ->
     (loadHistory JSON_parse w).1 = Normal tt
     /\ forall text e,
          stored (storage w) = Some text -> JSON_parse text = Throw e ->
          state (loadHistory JSON_parse w).2 = state w
          /\ storage (loadHistory JSON_parse w).2 = storage w
          /\ (text ≠ [] ->
              console (loadHistory JSON_parse w).2
              = console w ++ [(lit "Failed to parse history", e)])
          /\ (text = [] -> console (loadHistory JSON_parse w).2 = console w))
  /\ (readable (storage w) = false ->
       (loadHistory JSON_parse w).1 = Throw DOMException)
  /\ (forall generatedScenes currentRows currentSettings source,
        let updated :=
          take 30 (snapshot w generatedScenes currentRows currentSettings source
                   :: history (state w)) in
        let r := saveToHistory JSON_stringify generatedScenes currentRows
                   currentSettings source w in
        history (state r.2) = updated
        /\ (r.1 = Normal tt <-> accepts (storage w) (JSON_stringify updated) = true)
        /\ (r.1 = Throw DOMException
            <-> accepts (storage w) (JSON_stringify updated) = false))
  /\ (forall id,
        let updated :=
          List.filter (fun item => negb (bool_decide (HistoryItem.id item = id)))
            (history (state w)) in
        let r := deleteHistoryItem JSON_stringify id w in
        history (state r.2) = updated
        /\ (r.1 = Normal tt <-> accepts (storage w) (JSON_stringify updated) = true)
        /\ (r.1 = Throw DOMException
            <-> accepts (storage w) (JSON_stringify updated) = false)).
Proof.
  split; [|split; [|split]].
  - intros Hread. destruct (loadHistory_readable w Hread) as (Hret & Hbad & _).
    split; [exact Hret|]. intros text e Hs Hp.
    destruct (Hbad text e Hs Hp) as (Hstate & Hstorage & Hlog).
    split; [exact Hstate|]. split; [exact Hstorage|]. split; [exact Hlog|].
    intros ->.
    unfold loadHistory, mbind, action_bind, localStorage_getItem.
    rewrite Hread, Hs. by destruct w.
  - intros Hread. unfold loadHistory, mbind, action_bind, localStorage_getItem.
    by rewrite Hread.
  - intros gs rs st src updated r. subst r updated.
    split; [by rewrite saveToHistory_state|].
    destruct (saveToHistory_outcome gs rs st src w) as [Hyes Hno].
    destruct (accepts (storage w) _) eqn:Hacc.
    + destruct (Hyes eq_refl) as [-> _]. done.
    + destruct (Hno eq_refl) as [-> _]. done.
  - intros id updated r. subst r updated.
    destruct (deleteHistoryItem_outcome id w) as (Hhist & Hyes & Hno).
    split; [exact Hhist|].
    destruct (accepts (storage w) _) eqn:Hacc.
    + destruct (Hyes eq_refl) as [-> _]. done.
    + destruct (Hno eq_refl) as [-> _]. done.
Qed.

End Codec.

(** The theorem of C6 on a log of 30 items: the append keeps 30, the new
    item first and the item stamped 29, the oldest, gone. *)
Lemma saveToHistory_bounded_witness :
  let w' := (saveToHistory sampleStringify [] sampleRows DEFAULT_SETTINGS
               HistoryItem.script fullLogWorld).2 in
  List.length (history (state fullLogWorld)) = 30
  /\ List.length (history (state w')) = 30
  /\ map HistoryItem.timestamp (history (state w'))
     = 1700000000001%N :: map N.of_nat (seq 0 29).
Proof.
  intros w'. split; [reflexivity|].
  destruct (saveToHistory_bounded sampleStringify [] sampleRows
              DEFAULT_SETTINGS HistoryItem.script fullLogWorld)
    as (_ & _ & _ & Hfull).
  destruct (Hfull (map oldItem (seq 0 29)) (oldItem 29) eq_refl eq_refl)
    as [Hlog Hlen].
  split; [exact Hlen|]. subst w'. rewrite Hlog. vm_compute. reflexivity.
Defined.

(** The theorem of C7 on a session with two scenes: saved, then restored
    into a fresh session, the rows and the scenes are back. *)
Lemma save_then_restore_witness :
  exists item,
    rows (state (loadHistoryItem true item freshWorld).2) = sampleRows
    /\ settings (state (loadHistoryItem true item freshWorld).2) = settingsTwo
    /\ scenes (state (loadHistoryItem true item freshWorld).2)
       = [sampleScene; otherScene].
Proof.
  destruct (save_then_restore sampleStringify [sampleScene; otherScene]
              sampleRows settingsTwo HistoryItem.all busyWorld freshWorld)
    as (item & rest & _ & _ & _ & _ & _ & Hrows & Hsettings & Hscenes).
  exists item. split; [exact Hrows|]. split; [exact Hsettings|exact Hscenes].
Defined.

(** The theorem of C9 on a session whose stored payload is corrupt: the
    load on mount returns, the state is the initial one, with its empty
    log, and the failure is on the console. *)
Lemma persistence_failures_witness :
  readable (storage corruptStorageWorld) = true
  /\ (loadHistory sampleParse corruptStorageWorld).1 = Normal tt
  /\ state (loadHistory sampleParse corruptStorageWorld).2 = initialState
  /\ history initialState = []
  /\ console (loadHistory sampleParse corruptStorageWorld).2
     = [(lit "Failed to parse history", SyntaxError)].
Proof.
  split; [reflexivity|].
  destruct (persistence_failures sampleStringify sampleParse corruptStorageWorld)
    as (Hload & _).
  destruct (Hload eq_refl) as [Hret Hbad].
  split; [exact Hret|].
  destruct (Hbad (lit "[{") SyntaxError eq_refl eq_refl)
    as (Hstate & _ & Hlog & _).
  split; [exact Hstate|]. split; [reflexivity|].
  rewrite Hlog by (vm_compute; discriminate). reflexivity.
Defined.

(** C9 as stated fails: with a full storage, append and delete raise the
    storage's exception to their caller; with a storage that may not be
    read, so does the load on mount; and a generation that succeeded ends
    in the error status with the user-facing failure message, because the
    automatic snapshot could not be written. *)
Lemma storage_failures_propagate :
  (saveToHistory sampleStringify [] sampleRows DEFAULT_SETTINGS
     HistoryItem.script fullStorageWorld).1 = Throw DOMException
  /\ (handleSaveScript sampleStringify fullStorageWorld).1 = Throw DOMException
  /\ (deleteHistoryItem sampleStringify (lit "1700000000000")
        fullStorageWorld).1 = Throw DOMException
  /\ (loadHistory sampleParse blockedStorageWorld).1 = Throw DOMException
  /\ status (state (handleGenerate sampleStringify (Normal [sampleScene])
                      (InputSection.scriptText sampleRows)
                      DEFAULT_SETTINGS fullStorageWorld).2) = ERROR
  /\ error (state (handleGenerate sampleStringify (Normal [sampleScene])
                     (InputSection.scriptText sampleRows)
                     DEFAULT_SETTINGS fullStorageWorld).2)
     = Some (lit
         "Failed to generate prompts. Please check your API key and try again.").
Proof. repeat split; vm_compute; reflexivity. Qed.

(** A corrupt payload at startup: the load returns, the log stays empty and
    the failure is on the console. *)
Example loadHistory_corrupt_payload :
  (loadHistory sampleParse corruptStorageWorld).1 = Normal tt
  /\ history (state (loadHistory sampleParse corruptStorageWorld).2) = []
  /\ console (loadHistory sampleParse corruptStorageWorld).2
     = [(lit "Failed to parse history", SyntaxError)].
Proof. repeat split; vm_compute; reflexivity. Qed.

End HistoryStore.

(* ===================================================================== *)
(** * Further properties of the code *)
(* ===================================================================== *)

(** ** The history log: delete, reload, composition *)

Module HistoryFlows.
Import JS App Spec Samples.

Lemma filter_all {A} (f : A -> bool) (l : list A) :
  Forall (fun x => f x = true) l -> List.filter f l = l.
Proof.
  induction 1 as [|x r Hx _ IH]; simpl; [done|]. by rewrite Hx, IH.
Qed.

Lemma kept_items_sublist {A} (f : A -> bool) (l : list A) :
  List.filter f l `sublist_of` l.
Proof.
  induction l as [|x r IH]; simpl; [constructor|].
  destruct (f x); by constructor.
Qed.

Lemma keeps_other_ids id (l : list HistoryItem.t) :
  Forall (fun item => HistoryItem.id item ≠ id) l ->
  List.filter (fun item => negb (bool_decide (HistoryItem.id item = id))) l = l.
Proof.
  intros Hall. apply filter_all. eapply Forall_impl; [exact Hall|].
  intros item Hne. simpl. by rewrite bool_decide_eq_false_2.
Qed.

Section Codec.

Variable JSON_stringify : list HistoryItem.t -> jsstring.

Lemma saveToHistory_history gs rs st src w :
  history (state (saveToHistory JSON_stringify gs rs st src w).2)
  = take 30 (snapshot w gs rs st src :: history (state w)).
Proof.
  unfold saveToHistory, mbind, action_bind, getState, Date_now, setHistory,
    modifyState, localStorage_setItem. simpl.
  by destruct (accepts (storage w) _).
Qed.

Lemma saveToHistory_clock gs rs st src w :
  clock (saveToHistory JSON_stringify gs rs st src w).2 = clock w
  /\ reads (saveToHistory JSON_stringify gs rs st src w).2 = S (S (reads w)).
Proof.
  unfold saveToHistory, mbind, action_bind, getState, Date_now, setHistory,
    modifyState, localStorage_setItem. simpl.
  by destruct (accepts (storage w) _).
Qed.

Lemma deleteHistoryItem_history id w :
  history (state (deleteHistoryItem JSON_stringify id w).2)
  = List.filter (fun item => negb (bool_decide (HistoryItem.id item = id)))
      (history (state w)).
Proof.
  unfold deleteHistoryItem, mbind, action_bind, getState, setHistory,
    modifyState, localStorage_setItem. simpl.
  by destruct (accepts (storage w) _).
Qed.

(** X1.  Deleting by id takes out of the log every item with that id -
    all of them, should several share it - and keeps the others in their
    order; an id no item has leaves the log as it is.  Rows, settings and
    scenes are not touched. *)
Theorem deleteHistoryItem_removes (id : jsstring) (w : World) :
  let w' := (deleteHistoryItem JSON_stringify id w).2 in
  history (state w') `sublist_of` history (state w)
  /\ (forall item, item ∈ history (state w')
        <-> item ∈ history (state w) /\ HistoryItem.id item ≠ id)
  /\ (Forall (fun item => HistoryItem.id item ≠ id) (history (state w)) ->
      history (state w') = history (state w))
  /\ rows (state w') = rows (state w)
  /\ settings (state w') = settings (state w)
  /\ scenes (state w') = scenes (state w).
Proof.
  intros w'. subst w'. rewrite deleteHistoryItem_history.
  split; [apply kept_items_sublist|]. split; [|split].
  - intros item. rewrite !list_elem_of_In, filter_In, negb_true_iff.
    rewrite bool_decide_eq_false. tauto.
  - apply keeps_other_ids.
  - unfold deleteHistoryItem, mbind, action_bind, getState, setHistory,
      modifyState, localStorage_setItem. simpl.
    by destruct (accepts (storage w) _).
Qed.

(** X2.  On a log of fewer than 30 items none of which has the id the
    clock is about to give, appending a snapshot and then deleting it by
    its id gives the log back. *)
Theorem save_then_delete gs rs st src (w : World) :
  Forall (fun item => HistoryItem.id item ≠ show_N (clock w (reads w)))
    (history (state w)) ->
  List.length (history (state w)) < 30 ->
  history (state (deleteHistoryItem JSON_stringify (show_N (clock w (reads w)))
                    (saveToHistory JSON_stringify gs rs st src w).2).2)
  = history (state w).
Proof.
  intros Hfresh Hlen.
  rewrite deleteHistoryItem_history, saveToHistory_history.
  rewrite take_ge by (cbn [List.length]; lia).
  cbn [List.filter snapshot HistoryItem.id].
  rewrite bool_decide_eq_true_2 by done. simpl.
  by apply keeps_other_ids.
Qed.

(** X3.  The id of a snapshot is the clock reading alone: two appends that
    read the same millisecond give two items with one id, and deleting by
    that id removes both. *)
Theorem same_millisecond_snapshots_share_id gs1 rs1 st1 src1 gs2 rs2 st2 src2
    (w : World) :
  clock w (S (S (reads w))) = clock w (reads w) ->
  Forall (fun item => HistoryItem.id item ≠ show_N (clock w (reads w)))
    (history (state w)) ->
  List.length (history (state w)) <= 28 ->
  let w2 := (saveToHistory JSON_stringify gs2 rs2 st2 src2
               (saveToHistory JSON_stringify gs1 rs1 st1 src1 w).2).2 in
  List.length (history (state w2)) = S (S (List.length (history (state w))))
  /\ history (state (deleteHistoryItem JSON_stringify
                       (show_N (clock w (reads w))) w2).2)
     = history (state w).
Proof.
  intros Hsame Hfresh Hlen w2. subst w2.
  rewrite deleteHistoryItem_history, !saveToHistory_history.
  destruct (saveToHistory_clock gs1 rs1 st1 src1 w) as [Hclock Hreads].
  rewrite (take_ge (snapshot w gs1 rs1 st1 src1 :: _)) by (cbn [List.length]; lia).
  rewrite take_ge by (cbn [List.length]; lia).
  split; [done|].
  cbn [List.filter snapshot HistoryItem.id].
  rewrite Hclock, Hreads, Hsame.
  rewrite bool_decide_eq_true_2 by done. simpl.
  by apply keeps_other_ids.
Qed.

End Codec.

(** X2 on a log of two items: after the append and the delete the two
    items are the log again. *)
Lemma save_then_delete_witness :
  List.length (history (state smallLogWorld)) < 30
  /\ history (state (deleteHistoryItem sampleStringify
                       (show_N (clock smallLogWorld (reads smallLogWorld)))
                       (saveToHistory sampleStringify [sampleScene] sampleRows
                          settingsTwo HistoryItem.all smallLogWorld).2).2)
     = [oldItem 0; oldItem 1].
Proof.
  assert (Hlen : List.length (history (state smallLogWorld)) < 30)
    by (simpl; lia).
  split; [exact Hlen|].
  apply (save_then_delete sampleStringify [sampleScene] sampleRows settingsTwo
           HistoryItem.all smallLogWorld); [|exact Hlen].
  apply (bool_decide_unpack _). vm_compute. reflexivity.
Defined.

(** X3 with a clock that stands still: two appends, then one delete, and
    the log is the one before the appends. *)
Lemma same_millisecond_snapshots_share_id_witness :
  clock stoppedClockWorld 2 = clock stoppedClockWorld 0
  /\ history (state (deleteHistoryItem sampleStringify (lit "1700000000000")
                       (saveToHistory sampleStringify [] sampleRows
                          DEFAULT_SETTINGS HistoryItem.script
                          (saveToHistory sampleStringify [sampleScene]
                             sampleRows settingsTwo HistoryItem.all
                             stoppedClockWorld).2).2).2)
     = [oldItem 0; oldItem 1].
Proof.
  split; [reflexivity|].
  apply (same_millisecond_snapshots_share_id sampleStringify
           [sampleScene] sampleRows settingsTwo HistoryItem.all
           [] sampleRows DEFAULT_SETTINGS HistoryItem.script
           stoppedClockWorld eq_refl).
  - apply (bool_decide_unpack _). vm_compute. reflexivity.
  - simpl. lia.
Defined.

End HistoryFlows.

(** ** Reloading, restoring and generating *)

Module AppFlows.
Import JS App Spec Samples.

Definition failureMessage : jsstring :=
  lit "Failed to generate prompts. Please check your API key and try again.".

Section Codec.

Variable JSON_stringify : list HistoryItem.t -> jsstring.
Variable JSON_parse : jsstring -> completion (list HistoryItem.t).

Lemma saveToHistory_accepted gs rs st src w :
  accepts (storage w)
    (JSON_stringify (snapshot w gs rs st src :: take 29 (history (state w))))
  = true ->
  storage (saveToHistory JSON_stringify gs rs st src w).2
  = mkStorage
      (Some (JSON_stringify
               (snapshot w gs rs st src :: take 29 (history (state w)))))
      (readable (storage w)) (accepts (storage w))
  /\ history (state (saveToHistory JSON_stringify gs rs st src w).2)
     = snapshot w gs rs st src :: take 29 (history (state w)).
Proof.
  intros Hacc.
  unfold saveToHistory, mbind, action_bind, getState, Date_now, setHistory,
    modifyState, localStorage_setItem, snapshot in *.
  simpl. by rewrite Hacc.
Qed.

(** X4.  What an append persisted is what the next session loads: when the
    write is accepted and the parser reads the payload back as the log that
    was serialized, the load on mount of a session that finds this storage
    returns and installs the log the saving session held in memory. *)
Theorem saved_log_reloads gs rs st src (w next : World) :
  let updated := take 30 (snapshot w gs rs st src :: history (state w)) in
  accepts (storage w) (JSON_stringify updated) = true ->
  readable (storage w) = true ->
  JSON_parse (JSON_stringify updated) = Normal updated ->
  JSON_stringify updated ≠ [] ->
  storage next = storage (saveToHistory JSON_stringify gs rs st src w).2 ->
  (loadHistory JSON_parse next).1 = Normal tt
  /\ history (state (loadHistory JSON_parse next).2)
     = history (state (saveToHistory JSON_stringify gs rs st src w).2).
Proof.
  intros updated. subst updated.
  change (take 30 (snapshot w gs rs st src :: history (state w)))
    with (snapshot w gs rs st src :: take 29 (history (state w))).
  intros Hacc Hread Hparse Hne Hnext.
  destruct (saveToHistory_accepted gs rs st src w Hacc) as [Hstorage Hhistory].
  rewrite Hstorage in Hnext. rewrite Hhistory.
  unfold loadHistory, mbind, action_bind, localStorage_getItem, try_catch,
    lift, setHistory, modifyState.
  rewrite Hnext. cbn [readable stored]. rewrite Hread.
  destruct (JSON_stringify _) as [|c text] eqn:Hpayload; [done|].
  cbn [InputSection.nonempty]. rewrite Hparse. split; reflexivity.
Qed.

(** X5.  The load on mount of a session whose storage can be read:
    with no stored item, or an empty one, nothing is parsed and the world
    stays as it is; with a payload the parser accepts, the parsed log
    replaces the log of the state, whatever that was, and nothing else
    changes. *)
Theorem loadHistory_installs (w : World) :
  readable (storage w) = true ->
  (stored (storage w) = None \/ stored (storage w) = Some [] ->
   loadHistory JSON_parse w = (Normal tt, w))
  /\ (forall text log,
        stored (storage w) = Some text -> text ≠ [] ->
        JSON_parse text = Normal log ->
        (loadHistory JSON_parse w).1 = Normal tt
        /\ history (state (loadHistory JSON_parse w).2) = log
        /\ rows (state (loadHistory JSON_parse w).2) = rows (state w)
        /\ scenes (state (loadHistory JSON_parse w).2) = scenes (state w)
        /\ storage (loadHistory JSON_parse w).2 = storage w
        /\ console (loadHistory JSON_parse w).2 = console w).
Proof.
  intros Hread.
  unfold loadHistory, mbind, action_bind, localStorage_getItem, try_catch,
    lift, setHistory, modifyState.
  rewrite Hread. split.
  - intros [-> | ->]; reflexivity.
  - intros text log -> Hne Hparse. destruct text as [|c text]; [done|].
    cbn [InputSection.nonempty]. rewrite Hparse.
    repeat (split; [reflexivity|]). reflexivity.
Qed.

End Codec.

Section Stringify.

Variable JSON_stringify : list HistoryItem.t -> jsstring.

(** X6.  A confirmed restore sets the status to COMPLETE exactly when the
    item has scenes (IDLE otherwise), makes the item's settings the active
    ones, closes the drawer, and touches neither the log, the storage nor
    the error message; a declined one changes nothing at all. *)
Theorem loadHistoryItem_effects (item : HistoryItem.t) (w : World) :
  let w' := (loadHistoryItem true item w).2 in
  (status (state w') = COMPLETE <-> HistoryItem.scenes item ≠ [])
  /\ (status (state w') = IDLE <-> HistoryItem.scenes item = [])
  /\ activeSettings (state w') = Some (HistoryItem.settings item)
  /\ showHistory (state w') = false
  /\ error (state w') = error (state w)
  /\ history (state w') = history (state w)
  /\ storage w' = storage w
  /\ loadHistoryItem false item w = (Normal tt, w).
Proof.
  unfold loadHistoryItem, mbind, action_bind, setRows, setSettings,
    setActiveSettings, setScenes, updateScenes, setStatus, setShowHistory,
    modifyState. simpl.
  destruct (HistoryItem.scenes item) as [|s r]; simpl; repeat split; done.
Qed.

Lemma handleGenerate_failure_world e scriptText genSettings (w : World) :
  handleGenerate JSON_stringify (Throw e) scriptText genSettings w
  = (Normal tt,
     mkWorld
       (mkState (rows (state w)) (settings (state w)) (scenes (state w)) ERROR
          (Some failureMessage) (Some genSettings) (showHistory (state w))
          (history (state w)))
       (storage w) (clock w) (reads w) (console w ++ [([], e)]) (alerts w)).
Proof. reflexivity. Qed.

(** X7.  A generation whose request fails never raises out of the handler:
    the handler returns, the status is ERROR with the fixed message, the
    failure is on the console, and scenes, log and storage are as before -
    while the settings of the failed request have already become the
    active ones. *)
Theorem handleGenerate_failure e scriptText genSettings (w : World) :
  let r := handleGenerate JSON_stringify (Throw e) scriptText genSettings w in
  r.1 = Normal tt
  /\ status (state r.2) = ERROR
  /\ error (state r.2) = Some failureMessage
  /\ console r.2 = console w ++ [([], e)]
  /\ scenes (state r.2) = scenes (state w)
  /\ history (state r.2) = history (state w)
  /\ storage r.2 = storage w
  /\ activeSettings (state r.2) = Some genSettings.
Proof.
  intros r. subst r. rewrite handleGenerate_failure_world.
  cbn [fst snd state status error console scenes history storage activeSettings].
  repeat (split; [reflexivity|]). reflexivity.
Qed.

Lemma handleGenerate_success_world newScenes scriptText genSettings (w : World) :
  let item :=
    snapshot w newScenes (rows (state w)) genSettings HistoryItem.auto in
  let updated := item :: take 29 (history (state w)) in
  handleGenerate JSON_stringify (Normal newScenes) scriptText genSettings w
  = if accepts (storage w) (JSON_stringify updated)
    then (Normal tt,
          mkWorld
            (mkState (rows (state w)) (settings (state w)) newScenes COMPLETE
               None (Some genSettings) (showHistory (state w)) updated)
            (mkStorage (Some (JSON_stringify updated)) (readable (storage w))
               (accepts (storage w)))
            (clock w) (S (S (reads w))) (console w) (alerts w))
    else (Normal tt,
          mkWorld
            (mkState (rows (state w)) (settings (state w)) newScenes ERROR
               (Some failureMessage) (Some genSettings) (showHistory (state w))
               updated)
            (storage w) (clock w) (S (S (reads w)))
            (console w ++ [([], DOMException)]) (alerts w)).
Proof.
  intros item updated. subst item updated.
  lazy beta iota zeta delta -[take show_N show_nat lit app failureMessage].
  change (take 30 (?x :: ?h)) with (x :: take 29 h).
  destruct w as [st [payload canRead takes] clk n log al].
  destruct (takes _); reflexivity.
Qed.

(** X8.  A generation whose request succeeds replaces the scene store by
    the new scenes, makes its settings the active ones and puts an [auto]
    snapshot of the form's rows, those settings and the new scenes at the
    head of the log.  The handler returns in every case; the status is
    COMPLETE with no error when the storage takes the new log, and ERROR
    with the fixed message - the new scenes staying in place - when it does
    not. *)
Theorem handleGenerate_success newScenes scriptText genSettings (w : World) :
  let r := handleGenerate JSON_stringify (Normal newScenes) scriptText
             genSettings w in
  let updated :=
    snapshot w newScenes (rows (state w)) genSettings HistoryItem.auto
    :: take 29 (history (state w)) in
  r.1 = Normal tt
  /\ scenes (state r.2) = newScenes
  /\ activeSettings (state r.2) = Some genSettings
  /\ history (state r.2) = updated
  /\ (accepts (storage w) (JSON_stringify updated) = true ->
      status (state r.2) = COMPLETE /\ error (state r.2) = None
      /\ stored (storage r.2) = Some (JSON_stringify updated))
  /\ (accepts (storage w) (JSON_stringify updated) = false ->
      status (state r.2) = ERROR /\ error (state r.2) = Some failureMessage
      /\ storage r.2 = storage w).
Proof.
  intros r updated. subst r.
  pose proof (handleGenerate_success_world newScenes scriptText genSettings w)
    as Hworld.
  cbv zeta in Hworld. fold updated in Hworld. rewrite Hworld.
  destruct (accepts (storage w) (JSON_stringify updated));
    cbn [fst snd state status error scenes history storage activeSettings stored];
    repeat (split; [reflexivity|]);
    (split; [intros Ht|intros Hf]);
    first [discriminate | repeat (split; [reflexivity|]); reflexivity].
Qed.

(** X9.  "Save Script" snapshots the form without the scenes: whatever
    the scene store holds, restoring the item it has just put at the head
    of the log leaves the store empty and the status IDLE, with the rows
    and the form's settings back. *)
Theorem saveScript_then_restore_drops_scenes (w : World) :
  exists item rest,
    history (state (handleSaveScript JSON_stringify w).2) = item :: rest
    /\ HistoryItem.source item = HistoryItem.script
    /\ scenes (state (loadHistoryItem true item
                        (handleSaveScript JSON_stringify w).2).2) = []
    /\ status (state (loadHistoryItem true item
                        (handleSaveScript JSON_stringify w).2).2) = IDLE
    /\ rows (state (loadHistoryItem true item
                      (handleSaveScript JSON_stringify w).2).2)
       = rows (state w)
    /\ settings (state (loadHistoryItem true item
                          (handleSaveScript JSON_stringify w).2).2)
       = settings (state w).
Proof.
  exists (snapshot w [] (rows (state w)) (settings (state w)) HistoryItem.script),
         (take 29 (history (state w))).
  split.
  - lazy beta iota zeta delta -[take show_N show_nat lit app].
    change (take 30 (?x :: ?h)) with (x :: take 29 h).
    destruct w as [st [payload canRead takes] clk n log al].
    destruct (takes _); reflexivity.
  - repeat (split; [reflexivity|]). reflexivity.
Qed.

(** X10.  "Save Prompt" and "Save All" do nothing at all before a first
    generation or restore has set the active settings: no item, no write,
    no alert.  Once they are set, "Save All" snapshots the rows, the scenes
    and the active settings - not the settings of the form. *)
Theorem save_buttons_need_active_settings (w : World) :
  (activeSettings (state w) = None ->
   handleSavePrompt JSON_stringify w = (Normal tt, w)
   /\ handleSaveAll JSON_stringify w = (Normal tt, w))
  /\ (forall active,
        activeSettings (state w) = Some active ->
        history (state (handleSaveAll JSON_stringify w).2)
        = snapshot w (scenes (state w)) (rows (state w)) active HistoryItem.all
          :: take 29 (history (state w))).
Proof.
  split.
  - intros Hnone. unfold handleSavePrompt, handleSaveAll, mbind, action_bind,
      getState. cbn beta iota. rewrite Hnone. split; reflexivity.
  - intros active Hactive.
    unfold handleSaveAll. unfold mbind at 1. unfold action_bind at 1.
    unfold getState at 1. cbn beta iota. rewrite Hactive.
    lazy beta iota zeta delta -[take show_N show_nat lit app].
    change (take 30 (?x :: ?h)) with (x :: take 29 h).
    destruct w as [st [payload canRead takes] clk n log al].
    destruct (takes _); reflexivity.
Qed.

End Stringify.

(** X4 on a log of two items: the session that finds the storage a "Save
    All" wrote loads the three items that save held in memory. *)
Lemma saved_log_reloads_witness :
  let saved := (saveToHistory sampleStringify [sampleScene; otherScene]
                  sampleRows settingsTwo HistoryItem.all smallLogWorld).2 in
  let next := mkWorld initialState (storage saved) sampleClock 0 [] [] in
  (accepts (storage smallLogWorld) (lit "3") = true
   /\ replayParse (lit "3") = Normal [firstSnapshot; oldItem 0; oldItem 1])
  /\ (loadHistory replayParse next).1 = Normal tt
  /\ history (state (loadHistory replayParse next).2)
     = [firstSnapshot; oldItem 0; oldItem 1].
Proof.
  intros saved next. split; [split; reflexivity|].
  assert (Hne : sampleStringify [firstSnapshot; oldItem 0; oldItem 1] ≠ [])
    by (vm_compute; discriminate).
  destruct (saved_log_reloads sampleStringify replayParse
              [sampleScene; otherScene] sampleRows settingsTwo HistoryItem.all
              smallLogWorld next eq_refl eq_refl eq_refl Hne eq_refl)
    as [Hret Hlog].
  split; [exact Hret|]. rewrite Hlog. vm_compute. reflexivity.
Defined.

(** X5 on a fresh session: nothing stored, nothing changes. *)
Lemma loadHistory_installs_witness :
  readable (storage freshWorld) = true
  /\ loadHistory sampleParse freshWorld = (Normal tt, freshWorld).
Proof.
  split; [reflexivity|].
  apply (loadHistory_installs sampleParse freshWorld eq_refl).
  by left.
Defined.

End AppFlows.

(** ** Regeneration and whole sessions *)

Module SceneFlows.
Import JS App Spec Samples SceneStore.

(** X11.  When the service request of a regeneration succeeds, the handler
    returns and, position by position, a scene with another id is
    unchanged while a scene with the target id has its flag cleared and
    takes the prompts and the two reasonings the reply carries (keeping its
    own where the reply has none); its [imageCount], its id and its script
    stay as they were unless the reply itself carries such a member. *)
Theorem regeneration_success_merges
    (regenerateScene :
       jsstring -> GenerationSettings.t -> Z -> completion SceneData.partial)
    (id : jsstring) (count : Z) (w : World) (active : GenerationSettings.t)
    (target : SceneData.t) (data : SceneData.partial) :
  activeSettings (state w) = Some active ->
  List.find (fun s => bool_decide (SceneData.id s = id)) (scenes (state w))
    = Some target ->
  regenerateScene (SceneData.originalScript target) active count = Normal data ->
  let w' := (handleRegenerateScene regenerateScene id count w).2 in
  (handleRegenerateScene regenerateScene id count w).1 = Normal tt
  /\ List.length (scenes (state w')) = List.length (scenes (state w))
  /\ forall j s, scenes (state w) !! j = Some s ->
       exists s', scenes (state w') !! j = Some s'
         /\ (SceneData.id s ≠ id -> s' = s)
         /\ (SceneData.id s = id ->
               SceneData.isRegenerating s' = Some false
               /\ SceneData.prompts s'
                  = default (SceneData.prompts s) (SceneData.prompts' data)
               /\ SceneData.reasoningEn s'
                  = default (SceneData.reasoningEn s) (SceneData.reasoningEn' data)
               /\ SceneData.reasoningZh s'
                  = default (SceneData.reasoningZh s) (SceneData.reasoningZh' data)
               /\ (SceneData.imageCount' data = None ->
                   SceneData.imageCount s' = SceneData.imageCount s)
               /\ (SceneData.id' data = None ->
                   SceneData.id s' = SceneData.id s)
               /\ (SceneData.originalScript' data = None ->
                   SceneData.originalScript s' = SceneData.originalScript s)).
Proof.
  intros Hactive Hfind Hok w'.
  destruct (handleRegenerateScene_succeeded regenerateScene id count w active
              target data Hactive Hfind Hok) as [Hret Hscenes].
  subst w'. rewrite Hscenes.
  split; [exact Hret|]. split; [apply mapScene_length|].
  intros j s Hj. eexists. split; [by apply mapScene_lookup|].
  destruct (decide (SceneData.id s = id)) as [Hid|Hid]; split; try done.
  intros _. unfold mergeRegenerated. cbn [SceneData.isRegenerating
    SceneData.prompts SceneData.reasoningEn SceneData.reasoningZh
    SceneData.imageCount SceneData.id SceneData.originalScript].
  repeat (split; [reflexivity|]).
  split; [by intros ->|]. split; by intros ->.
Qed.

(** X11 on a store of two scenes: the first one gets the four new prompts
    and keeps its count of 4; the second is untouched. *)
Lemma regeneration_success_merges_witness :
  activeSettings (state busyWorld) = Some DEFAULT_SETTINGS
  /\ (exists s',
        scenes (state (handleRegenerateScene grantedRequest
                         (lit "scene-1700000000000-0") 4 busyWorld).2) !! 0
        = Some s'
        /\ SceneData.isRegenerating s' = Some false
        /\ List.length (SceneData.prompts s') = 4
        /\ SceneData.imageCount s' = 4%Z).
Proof.
  split; [reflexivity|].
  destruct (regeneration_success_merges grantedRequest
              (lit "scene-1700000000000-0") 4 busyWorld DEFAULT_SETTINGS
              (withRegenerating true sampleScene) regeneratedData
              eq_refl eq_refl eq_refl) as (_ & _ & Hpos).
  destruct (Hpos 0 (withRegenerating true sampleScene) eq_refl)
    as (s' & Hs' & _ & Hsame).
  destruct (Hsame eq_refl) as (Hflag & Hprompts & _ & _ & Hcount & _).
  exists s'. split; [exact Hs'|]. split; [exact Hflag|].
  split; [by rewrite Hprompts|]. by rewrite (Hcount eq_refl).
Defined.

(** X12.  No request is made, and nothing changes, when no settings are
    active or when no scene has the id: in both cases the outcome is the
    world as it was, whatever the service would have answered. *)
Theorem regeneration_without_target
    (regenerateScene :
       jsstring -> GenerationSettings.t -> Z -> completion SceneData.partial)
    (id : jsstring) (count : Z) (w : World) :
  activeSettings (state w) = None
  \/ Forall (fun s => SceneData.id s ≠ id) (scenes (state w)) ->
  handleRegenerateScene regenerateScene id count w = (Normal tt, w).
Proof.
  intros Hcase.
  destruct w as [[rs st sc sts err act sh hist] sto clk n log al].
  cbn [state activeSettings scenes] in Hcase.
  unfold handleRegenerateScene. unfold mbind at 1. unfold action_bind at 1.
  unfold getState at 1. cbn beta iota. cbn [state activeSettings scenes].
  destruct act as [active|]; [|reflexivity].
  destruct Hcase as [Hnone|Habsent]; [discriminate|].
  assert (Hfind : List.find (fun s => bool_decide (SceneData.id s = id)) sc
                  = None).
  { clear -Habsent. induction Habsent as [|s r Hs _ IH]; simpl; [done|].
    by rewrite bool_decide_eq_false_2. }
  rewrite Hfind.
  lazy beta iota zeta delta [mbind action_bind try_catch updateScenes
    modifyState mret action_ret state storage clock reads console alerts
    rows settings scenes status error activeSettings showHistory history].
  by rewrite mapScene_absent.
Qed.

(** X12 on a store where no scene has the id asked for. *)
Lemma regeneration_without_target_witness :
  handleRegenerateScene grantedRequest (lit "scene-0") 4 busyWorld
  = (Normal tt, busyWorld).
Proof.
  apply (regeneration_without_target grantedRequest (lit "scene-0") 4 busyWorld).
  right. apply (bool_decide_unpack _). vm_compute. reflexivity.
Defined.

End SceneFlows.

(** ** What every session keeps *)

Module Sessions.
Import JS App Spec Samples Session.

Section Stringify.

Variable JSON_stringify : list HistoryItem.t -> jsstring.

(** What a command does to the log: it leaves it, it puts one item in
    front of the 29 newest, or it filters it. *)
Lemma perform_history (c : command) (w : World) :
  history (state (perform JSON_stringify c w).2) = history (state w)
  \/ (exists item,
        history (state (perform JSON_stringify c w).2)
        = item :: take 29 (history (state w)))
  \/ (exists f,
        history (state (perform JSON_stringify c w).2)
        = List.filter f (history (state w))).
Proof.
  destruct w as [[rs st sc sts err act sh hist] [payload canRead takes] clk n log al].
  destruct c as [| | |id|confirmed item|generated text gs|regen id count
                 |id count|]; cbn [perform].
  - right; left. eexists.
    lazy beta iota zeta delta -[take show_N show_nat lit app].
    change (take 30 (?x :: ?h)) with (x :: take 29 h).
    destruct (takes _); reflexivity.
  - destruct act as [active|]; [|by left].
    right; left. eexists.
    lazy beta iota zeta delta -[take show_N show_nat lit app].
    change (take 30 (?x :: ?h)) with (x :: take 29 h).
    destruct (takes _); reflexivity.
  - destruct act as [active|]; [|by left].
    right; left. eexists.
    lazy beta iota zeta delta -[take show_N show_nat lit app].
    change (take 30 (?x :: ?h)) with (x :: take 29 h).
    destruct (takes _); reflexivity.
  - right; right. eexists.
    lazy beta iota zeta delta -[List.filter show_N show_nat lit app].
    destruct (takes _); reflexivity.
  - left. destruct confirmed; [|reflexivity].
    lazy beta iota zeta delta -[show_N show_nat lit app Z.ltb].
    by destruct (0 <? _)%Z.
  - destruct generated as [newScenes|e]; [|by left].
    right; left. eexists.
    lazy beta iota zeta delta -[take show_N show_nat lit app].
    change (take 30 (?x :: ?h)) with (x :: take 29 h).
    destruct (takes _); reflexivity.
  - left. unfold handleRegenerateScene. unfold mbind at 1.
    unfold action_bind at 1. unfold getState at 1. cbn beta iota.
    cbn [state activeSettings scenes].
    destruct act as [active|]; [|reflexivity].
    destruct (List.find _ sc) as [target|];
      [destruct (regen (SceneData.originalScript target) active count)|];
      reflexivity.
  - by left.
  - by left.
Qed.

(** X13.  Whatever the user does after startup - saving, deleting,
    restoring, generating (with success or not), regenerating, changing a
    count, clearing - and whether or not the storage takes the writes, a
    log of at most 30 items stays a log of at most 30 items. *)
Theorem session_history_bounded (cs : list command) (w : World) :
  List.length (history (state w)) <= 30 ->
  List.length (history (state (session JSON_stringify cs w))) <= 30.
Proof.
  revert w. induction cs as [|c cs IH]; intros w Hw; [exact Hw|].
  cbn [session]. apply IH.
  destruct (perform_history c w) as [->|[[item ->]|[f ->]]].
  - exact Hw.
  - cbn [List.length]. rewrite length_take. lia.
  - pose proof (List.filter_length_le f (history (state w))). lia.
Qed.

End Stringify.

(** X13 on a session that starts with a full log and a full storage. *)
Lemma session_history_bounded_witness :
  List.length (history (state fullLogWorld)) <= 30
  /\ List.length
       (history (state (session sampleStringify
          [ SaveScript;
            Generate (Normal [sampleScene]) (lit "A hero walks into a bar.")
              settingsTwo;
            SaveAll;
            DeleteItem (lit "3");
            Regenerate refusedRequest (lit "scene-1700000000000-0") 4;
            SavePrompt ]
          fullLogWorld))) <= 30.
Proof.
  assert (Hfull : List.length (history (state fullLogWorld)) <= 30)
    by (vm_compute; lia).
  split; [exact Hfull|].
  exact (session_history_bounded sampleStringify _ fullLogWorld Hfull).
Defined.

End Sessions.

(** ** The text exporter *)

Module ExportFlows.
Import JS JSFacts ExportService Samples.











Section Printing.
Variable beyond : Z -> jsstring.













End Printing.

(** Three runs: a header that fits, the same header under a longest string
    of 64 code units, and a scene with one slot and no prompt. *)
Example exportToTxt_runs :
  exportToTxt 1000 sampleBeyond [] None (lit "1/1/2026, 9:00:00 AM")
  = Normal (lit "Script2Prompt Export" ++ [10%N]
            ++ lit "Generated: 1/1/2026, 9:00:00 AM" ++ [10%N]
            ++ lit "=================================================" 
            ++ [10%N; 10%N])
  /\ exportToTxt 64 sampleBeyond [] None (lit "1/1/2026, 9:00:00 AM")
     = Throw RangeError
  /\ exportToTxt 1000 sampleBeyond
       [SceneData.mk (lit "scene-1") (lit "A door.") 1 None [] [] [] None]
       None (lit "1/1/2026, 9:00:00 AM")
     = Throw TypeError.
Proof. repeat split; vm_compute; reflexivity. Qed.

End ExportFlows.

(** ** The input form *)

Module InputFlows.
Import JS JSFacts InputSection InputRows Spec Samples.

Lemma blank_app (a b : jsstring) : blank (a ++ b) = blank a && blank b.
Proof. apply forallb_app. Qed.

Lemma line_not_blank r : blank (ScriptRow.content r) = false -> blank (line r) = false.
Proof.
  intros Hc. unfold line. destruct (blank (ScriptRow.timestamp r)); [done|].
  rewrite !blank_app, Hc. by rewrite !andb_false_r.
Qed.

Lemma join_not_blank sep x r : blank x = false -> blank (join sep (x :: r)) = false.
Proof. intros Hx. simpl. by rewrite blank_app, Hx. Qed.

(** The script text is blank exactly when no row is kept. *)
Lemma scriptText_blank rows :
  blank (scriptText rows) = true <-> keptRows rows = [].
Proof.
  unfold scriptText.
  rewrite (List.filter_ext _ (fun r => negb (blank (ScriptRow.content r))))
    by (intros r; apply ScriptText.nonempty_trim).
  fold (keptRows rows).
  assert (Hkept : Forall (fun r => blank (ScriptRow.content r) = false)
                    (keptRows rows)).
  { apply Forall_forall. intros r Hr. apply list_elem_of_In in Hr.
    apply filter_In in Hr. destruct Hr as [_ Hr].
    by apply negb_true_iff in Hr. }
  destruct (keptRows rows) as [|x r]; [done|].
  split; [|done]. intros Hb. simpl map in Hb.
  rewrite join_not_blank in Hb; [done|].
  rewrite ScriptText.renderRow_line. apply line_not_blank.
  by inversion Hkept.
Qed.

(** X15.  Submitting the form calls the generation - with the script text
    and the settings of the form - exactly when no generation is running
    and some row has a content that is not blank; otherwise nothing is
    called. *)
Theorem handleSubmit_calls (rows : list ScriptRow.t) (status : GenerationStatus)
    (settings : GenerationSettings.t) :
  (handleSubmit rows status settings = Some (scriptText rows, settings)
   <-> status ≠ GENERATING
       /\ Exists (fun r => blank (ScriptRow.content r) = false) rows)
  /\ (handleSubmit rows status settings = None
      <-> status = GENERATING
          \/ Forall (fun r => blank (ScriptRow.content r) = true) rows).
Proof.
  assert (Hkept : keptRows rows = []
                  <-> Forall (fun r => blank (ScriptRow.content r) = true) rows).
  { unfold keptRows. induction rows as [|r rs IH]; simpl; [done|].
    destruct (blank (ScriptRow.content r)) eqn:Hr; simpl.
    - rewrite IH. split; [by constructor|by inversion 1].
    - split; [done|]. inversion 1; congruence. }
  assert (Hsome : Exists (fun r => blank (ScriptRow.content r) = false) rows
                  <-> keptRows rows ≠ []).
  { clear Hkept. unfold keptRows.
    induction rows as [|r rs IH]; simpl; [split; [by inversion 1|done]|].
    rewrite Exists_cons.
    destruct (blank (ScriptRow.content r)) eqn:Hr; simpl.
    - rewrite <- IH. split; [by intros [?|?]|by right].
    - split; [done|by left]. }
  unfold handleSubmit. rewrite ScriptText.nonempty_trim.
  destruct (blank (scriptText rows)) eqn:Hb.
  - apply scriptText_blank in Hb. simpl. split.
    + split; [done|]. intros [_ Hex]. apply Hsome in Hex. done.
    + split; [|done]. intros _. right. by apply Hkept.
  - assert (Hne : keptRows rows ≠ []).
    { intros Hk. apply scriptText_blank in Hk. congruence. }
    simpl. destruct status; simpl; split; split; try done.
    all: try (intros _; split; [done|by apply Hsome]).
    all: try (intros [Hs _]; done).
    all: try (intros [Hs|Hall]; [done|by apply Hkept in Hall]).
    all: try (intros _; by left).
Qed.

Lemma newItems_blank (f : nat -> unit -> ScriptRow.t) n :
  (forall i u, ScriptRow.content (f i u) = [] /\ ScriptRow.timestamp (f i u) = []) ->
  Forall (fun r => ScriptRow.content r = [] /\ ScriptRow.timestamp r = [])
    (imap f (replicate n tt)).
Proof.
  intros Hf. apply Forall_lookup. intros i r Hi.
  rewrite list_lookup_imap in Hi.
  destruct (replicate n tt !! i) as [u|]; [|done].
  injection Hi as <-. apply Hf.
Qed.

(** X16.  Setting the number of rows.  Asking for [2^32] rows or more
    beyond those there raises a [RangeError].  For a count that an array
    can have, the update returns: with exactly that many rows when the
    count is not negative, with [max (length + count) 0] rows when it is;
    the result is either the old rows cut at the end, or the old rows
    followed by new ones, and every new row has an empty timestamp and an
    empty content. *)
Theorem resizedRows_shape (beyond : Z -> jsstring) (now : nat -> N)
    (newCount : Z) (rows : list ScriptRow.t) :
  ((2 ^ 32 <= newCount - Z.of_nat (List.length rows))%Z ->
   resizedRows beyond now newCount rows = Throw RangeError)
  /\ ((newCount < 2 ^ 32)%Z ->
      exists rows',
        resizedRows beyond now newCount rows = Normal rows'
        /\ List.length rows'
           = Z.to_nat (if (newCount <? 0)%Z
                       then Z.max (Z.of_nat (List.length rows) + newCount) 0
                       else newCount)
        /\ (rows' `prefix_of` rows \/ rows `prefix_of` rows')
        /\ Forall (fun r => ScriptRow.content r = []
                            /\ ScriptRow.timestamp r = [])
             (drop (List.length rows) rows')).
Proof.
  unfold resizedRows, Array_from_length. split.
  - intros Hbig.
    destruct (Z.gtb_spec newCount (Z.of_nat (List.length rows))) as [Hgt|Hle];
      [|lia].
    by destruct (Z.ltb_spec (newCount - Z.of_nat (List.length rows)) (2 ^ 32));
      [lia|].
  - intros Hsmall.
    destruct (Z.gtb_spec newCount (Z.of_nat (List.length rows))) as [Hgt|Hle].
    + destruct (Z.ltb_spec (newCount - Z.of_nat (List.length rows)) (2 ^ 32));
        [|lia].
      rewrite bind_Normal. eexists. split; [reflexivity|].
      destruct (newCount <? 0)%Z eqn:Hneg; [apply Z.ltb_lt in Hneg; lia|].
      split; [|split].
      * rewrite length_app, length_imap, length_replicate. lia.
      * right. by eexists.
      * rewrite drop_app_length. by apply newItems_blank.
    + destruct (newCount <? Z.of_nat (List.length rows))%Z eqn:Hlt.
      * apply Z.ltb_lt in Hlt. eexists. split; [reflexivity|]. unfold slice0.
        destruct (newCount <? 0)%Z eqn:Hneg.
        -- split; [rewrite length_take; lia|]. split.
           ++ left. apply prefix_take.
           ++ rewrite drop_ge; [constructor|]. rewrite length_take. lia.
        -- apply Z.ltb_ge in Hneg.
           split; [rewrite length_take; lia|]. split.
           ++ left. apply prefix_take.
           ++ rewrite drop_ge; [constructor|]. rewrite length_take. lia.
      * apply Z.ltb_ge in Hlt. eexists. split; [reflexivity|].
        destruct (newCount <? 0)%Z eqn:Hneg; [apply Z.ltb_lt in Hneg; lia|].
        split; [lia|]. split; [by left|]. by rewrite drop_all.
Qed.

(** X16 on the three sample rows: five rows asked for give five rows, and
    [2^32 + 3] rows asked for raise. *)
Lemma resizedRows_shape_witness :
  (exists rows',
     resizedRows sampleBeyond sampleClock 5 sampleRows = Normal rows'
     /\ List.length rows' = 5)
  /\ resizedRows sampleBeyond sampleClock (2 ^ 32 + 3) sampleRows
     = Throw RangeError.
Proof.
  destruct (resizedRows_shape sampleBeyond sampleClock 5 sampleRows)
    as [_ Hfive].
  destruct (Hfive ltac:(lia)) as (rows' & Heq & Hlen & _).
  split; [by exists rows'|].
  apply (resizedRows_shape sampleBeyond sampleClock (2 ^ 32 + 3) sampleRows).
  simpl List.length. lia.
Defined.

Lemma filter_none {A} (f : A -> bool) (l : list A) :
  Forall (fun x => f x = false) l -> List.filter f l = [].
Proof. induction 1 as [|x r Hx _ IH]; simpl; [done|]. by rewrite Hx. Qed.

(** X17.  Rows added by a resize do not reach the model: for every count
    that is at least the number of rows, and that an array can have, the
    resize returns and the script text after it is the script text before
    it. *)
Theorem adding_rows_keeps_scriptText (beyond : Z -> jsstring) (now : nat -> N)
    (newCount : Z) (rows : list ScriptRow.t) :
  (Z.of_nat (List.length rows) <= newCount < 2 ^ 32)%Z ->
  exists rows',
    resizedRows beyond now newCount rows = Normal rows'
    /\ scriptText rows' = scriptText rows.
Proof.
  intros [Hle Hsmall]. unfold resizedRows, Array_from_length.
  destruct (Z.gtb_spec newCount (Z.of_nat (List.length rows))) as [Hgt|_].
  - destruct (Z.ltb_spec (newCount - Z.of_nat (List.length rows)) (2 ^ 32));
      [|lia].
    rewrite bind_Normal. eexists. split; [reflexivity|].
    unfold scriptText. rewrite List.filter_app.
    rewrite (filter_none _ (imap _ _)); [by rewrite app_nil_r|].
    eapply Forall_impl.
    + apply newItems_blank. intros i u. split; reflexivity.
    + intros r [Hc _]. simpl. by rewrite Hc.
  - destruct (newCount <? Z.of_nat (List.length rows))%Z eqn:Hlt;
      [apply Z.ltb_lt in Hlt; lia|].
    by eexists.
Qed.

(** X17 on the sample rows grown to ten. *)
Lemma adding_rows_keeps_scriptText_witness :
  (Z.of_nat (List.length sampleRows) <= 10 < 2 ^ 32)%Z
  /\ exists rows',
       resizedRows sampleBeyond sampleClock 10 sampleRows = Normal rows'
       /\ scriptText rows'
          = lit "[00:00] A hero walks into a bar." ++ [10%N]
            ++ lit "He orders a drink.".
Proof.
  assert (Hle : (Z.of_nat (List.length sampleRows) <= 10 < 2 ^ 32)%Z)
    by (simpl List.length; lia).
  split; [exact Hle|].
  destruct (adding_rows_keeps_scriptText sampleBeyond sampleClock 10 sampleRows
              Hle) as (rows' & Heq & Htext).
  exists rows'. split; [exact Heq|]. rewrite Htext. vm_compute. reflexivity.
Defined.

Lemma remove_unique_id id (rows : list ScriptRow.t) :
  NoDup (map ScriptRow.id rows) ->
  id ∈ map ScriptRow.id rows ->
  S (List.length
       (List.filter (fun row => negb (bool_decide (ScriptRow.id row = id))) rows))
  = List.length rows.
Proof.
  induction rows as [|r rs IH]; simpl; intros Hnd Hin.
  - by apply elem_of_nil in Hin.
  - apply NoDup_cons in Hnd as [Hr Hrs].
    destruct (decide (ScriptRow.id r = id)) as [Hid|Hid].
    + rewrite bool_decide_eq_true_2 by done. simpl. f_equal. f_equal.
      apply HistoryFlows.filter_all. apply Forall_forall. intros x Hx. simpl.
      rewrite bool_decide_eq_false_2; [done|].
      intros Hxid. apply Hr. rewrite Hid, <- Hxid.
      by apply list_elem_of_fmap_2.
    + rewrite bool_decide_eq_false_2 by done. simpl. f_equal.
      apply IH; [done|]. apply elem_of_cons in Hin as [Hin|Hin]; [congruence|done].
Qed.

(** X18.  Removing a row: a form with a single row (or none) is left as it
    is; on a longer form whose row ids are distinct, removing a row that is
    there takes out exactly that one - the others stay, in their order, and
    the row counter shows the new number; without distinct ids the guard
    is not enough, and rows that all share the id are removed together,
    leaving none. *)
Theorem handleRemoveRow_effect (id : jsstring) (f : Form) :
  (List.length (rows f) <= 1 -> handleRemoveRow id f = f)
  /\ (1 < List.length (rows f) ->
      NoDup (map ScriptRow.id (rows f)) ->
      id ∈ map ScriptRow.id (rows f) ->
      S (List.length (rows (handleRemoveRow id f))) = List.length (rows f)
      /\ rows (handleRemoveRow id f) `sublist_of` rows f
      /\ (id ∉ map ScriptRow.id (rows (handleRemoveRow id f)))
      /\ totalRowsInput (handleRemoveRow id f)
         = show_nat (List.length (rows (handleRemoveRow id f))))
  /\ (1 < List.length (rows f) ->
      Forall (fun row => ScriptRow.id row = id) (rows f) ->
      rows (handleRemoveRow id f) = []).
Proof.
  unfold handleRemoveRow.
  destruct (1 <? Z.of_nat (List.length (rows f)))%Z eqn:Hlen.
  - apply Z.ltb_lt in Hlen. split; [lia|]. cbn [rows totalRowsInput]. split.
    + intros _ Hnd Hin. split; [by apply remove_unique_id|].
      split; [apply HistoryFlows.kept_items_sublist|]. split; [|done].
      intros Hmem. apply list_elem_of_fmap in Hmem as (row & Hid & Hrow).
      apply list_elem_of_In, filter_In in Hrow as [_ Hrow].
      apply negb_true_iff, bool_decide_eq_false in Hrow. congruence.
    + intros _ Hall. apply filter_none.
      eapply Forall_impl; [exact Hall|]. intros row Hrow. simpl.
      by rewrite bool_decide_eq_true_2.
  - apply Z.ltb_ge in Hlen. split; [done|]. split; intros; lia.
Qed.

(** X18 on the three sample rows: removing the second leaves the first and
    the third. *)
Lemma handleRemoveRow_effect_witness :
  map ScriptRow.id (rows (handleRemoveRow (lit "2") (mkForm sampleRows 1 (lit "3"))))
  = [lit "1"; lit "3"]
  /\ S (List.length (rows (handleRemoveRow (lit "2")
                             (mkForm sampleRows 1 (lit "3"))))) = 3.
Proof.
  split; [vm_compute; reflexivity|].
  destruct (handleRemoveRow_effect (lit "2") (mkForm sampleRows 1 (lit "3")))
    as (_ & Hone & _).
  apply Hone.
  - simpl. lia.
  - apply (bool_decide_unpack _). vm_compute. reflexivity.
  - apply (bool_decide_unpack _). vm_compute. reflexivity.
Defined.

(** The digits of an integer that is a small array length. *)
Lemma Number_toString_digits beyond (z : Z) :
  (0 <= z < 2 ^ 32)%Z -> Number_toString beyond z = show_N (Z.to_N z).
Proof.
  intros Hz. unfold Number_toString.
  destruct (Z.leb_spec (Z.abs z) (2 ^ 53)); [|lia].
  by destruct (Z.ltb_spec z 0); [lia|].
Qed.

(** X19.  "Add rows" with a quantity that is not negative and a total that
    an array can have appends that many rows after the old ones and shows
    the new total, in digits, in the counter; with a quantity of [2^32] or
    more it raises a [RangeError]; with the quantity [-n] on a form of [n]
    rows it leaves no row at all, which the remove button never allows. *)
Theorem handleAddRows_effect (beyond : Z -> jsstring) (now : nat -> N)
    (f : Form) :
  ((0 <= rowsToAdd f)%Z ->
   (Z.of_nat (List.length (rows f)) + rowsToAdd f < 2 ^ 32)%Z ->
   exists f',
     handleAddRows beyond now f = Normal f'
     /\ rows f `prefix_of` rows f'
     /\ Z.of_nat (List.length (rows f'))
        = (Z.of_nat (List.length (rows f)) + rowsToAdd f)%Z
     /\ totalRowsInput f'
        = show_N (Z.to_N (Z.of_nat (List.length (rows f)) + rowsToAdd f))
     /\ rowsToAdd f' = rowsToAdd f)
  /\ ((2 ^ 32 <= rowsToAdd f)%Z ->
      handleAddRows beyond now f = Throw RangeError)
  /\ (rowsToAdd f = (- Z.of_nat (List.length (rows f)))%Z ->
      exists f', handleAddRows beyond now f = Normal f' /\ rows f' = []).
Proof.
  unfold handleAddRows, updateRowsList, resizedRows, Array_from_length.
  split; [|split].
  - intros Hadd Hsmall.
    rewrite (Number_toString_digits beyond
               (Z.of_nat (List.length (rows f)) + rowsToAdd f)) by lia.
    destruct (Z.gtb_spec (Z.of_nat (List.length (rows f)) + rowsToAdd f)
                (Z.of_nat (List.length (rows f)))) as [Hgt|Hle].
    + destruct (Z.ltb_spec (Z.of_nat (List.length (rows f)) + rowsToAdd f
                            - Z.of_nat (List.length (rows f))) (2 ^ 32));
        [|lia].
      rewrite !bind_Normal. eexists. split; [reflexivity|]. cbn [rows].
      split; [by eexists|]. split; [|done].
      rewrite length_app, length_imap, length_replicate. lia.
    + destruct (_ <? _)%Z eqn:Hlt; [apply Z.ltb_lt in Hlt; lia|].
      rewrite bind_Normal. eexists. split; [reflexivity|]. cbn [rows].
      split; [done|]. split; [lia|done].
  - intros Hbig.
    destruct (Z.gtb_spec (Z.of_nat (List.length (rows f)) + rowsToAdd f)
                (Z.of_nat (List.length (rows f)))) as [Hgt|Hle]; [|lia].
    by destruct (Z.ltb_spec (Z.of_nat (List.length (rows f)) + rowsToAdd f
                             - Z.of_nat (List.length (rows f))) (2 ^ 32));
      [lia|].
  - intros ->.
    replace (Z.of_nat (List.length (rows f)) + - Z.of_nat (List.length (rows f)))%Z
      with 0%Z by lia.
    destruct (Z.gtb_spec 0 (Z.of_nat (List.length (rows f)))) as [Hgt|_]; [lia|].
    destruct (rows f) as [|r rs] eqn:Hrows.
    + eexists. split; [reflexivity|]. done.
    + eexists. split; [reflexivity|]. done.
Qed.

(** X19 on the three sample rows: five more make eight, [2^32] more raise,
    minus three make none. *)
Lemma handleAddRows_effect_witness :
  (exists f',
     handleAddRows sampleBeyond sampleClock (mkForm sampleRows 5 (lit "3"))
     = Normal f'
     /\ Z.of_nat (List.length (rows f')) = 8%Z
     /\ totalRowsInput f' = lit "8")
  /\ handleAddRows sampleBeyond sampleClock
       (mkForm sampleRows (2 ^ 32) (lit "3")) = Throw RangeError
  /\ (exists f',
        handleAddRows sampleBeyond sampleClock
          (mkForm sampleRows (-3) (lit "3")) = Normal f'
        /\ rows f' = []).
Proof.
  split; [|split].
  - destruct (handleAddRows_effect sampleBeyond sampleClock
                (mkForm sampleRows 5 (lit "3"))) as [Hadd _].
    destruct (Hadd ltac:(simpl; lia) ltac:(simpl; lia))
      as (f' & Heq & _ & Hlen & Hshown & _).
    exists f'. split; [exact Heq|]. split; [exact Hlen|]. rewrite Hshown.
    vm_compute. reflexivity.
  - apply (handleAddRows_effect sampleBeyond sampleClock
             (mkForm sampleRows (2 ^ 32) (lit "3"))).
    simpl. lia.
  - apply (handleAddRows_effect sampleBeyond sampleClock
             (mkForm sampleRows (-3) (lit "3"))).
    reflexivity.
Defined.

End InputFlows.

(** ** The scenes the reconciler makes *)

Module ReconcilerFlows.
Import JS JSFacts GeminiService Spec Samples.

(** X20.  A scene made from a reply element that is not [null] carries
    every member of the element verbatim, [prompts] apart; it gets the
    generated id and the model's count as [aiSuggestedCount] when the
    element has no such members; and it has no member beyond those of the
    element and the four the reconciler sets. *)
Theorem reply_members_pass_through settings now scene index :
  nullish scene = false ->
  exists out,
    sceneOfReply settings now scene index = Normal (VObj out)
    /\ (forall k v, k ≠ lit "prompts" ->
          own_props scene !! k = Some v -> out !! k = Some v)
    /\ (own_props scene !! lit "id" = None ->
        out !! lit "id" = Some (sceneId now index))
    /\ (own_props scene !! lit "aiSuggestedCount" = None ->
        out !! lit "aiSuggestedCount"
        = Some (field scene (lit "suggestedImageCount")))
    /\ (forall k, out !! k = None
          <-> own_props scene !! k = None
              /\ k ≠ lit "id" /\ k ≠ lit "imageCount"
              /\ k ≠ lit "aiSuggestedCount" /\ k ≠ lit "prompts").
Proof.
  intros Hs. eexists. split; [by apply Reconciler.sceneOfReply_object|].
  cbn [fold_left add_member]. unfold define, spread.
  split; [|split; [|split]].
  - intros k v Hk Hown. rewrite lookup_insert_ne by done.
    by apply lookup_union_Some_l.
  - intros Hown. rewrite lookup_insert_ne by done.
    rewrite lookup_union_r by done.
    rewrite !lookup_insert_ne by done. by rewrite lookup_insert_eq.
  - intros Hown. rewrite lookup_insert_ne by done.
    rewrite lookup_union_r by done. by rewrite lookup_insert_eq.
  - intros k. rewrite lookup_insert_None, lookup_union_None.
    rewrite !lookup_insert_None, lookup_empty. naive_solver.
Qed.

(** X20 on the sample element: the script and the reasoning come through,
    the id is the generated one. *)
Lemma reply_members_pass_through_witness :
  nullish replyScene = false
  /\ exists out,
       sceneOfReply settingsTwo sampleNow replyScene 4 = Normal (VObj out)
       /\ out !! lit "originalScript"
          = Some (VStr (lit "A hero walks into a bar."))
       /\ out !! lit "id" = Some (VStr (lit "scene-1700000000000-4")).
Proof.
  split; [reflexivity|].
  destruct (reply_members_pass_through settingsTwo sampleNow replyScene 4 eq_refl)
    as (out & Hout & Hpass & Hid & _).
  exists out. split; [exact Hout|]. split.
  - apply Hpass; [done|]. vm_compute. reflexivity.
  - rewrite Hid by (vm_compute; reflexivity). vm_compute. reflexivity.
Defined.

(** *** The generated ids *)

Lemma lit_cons c s : lit (String c s) = N_of_ascii c :: lit s.
Proof. reflexivity. Qed.

Lemma lit_inj s t : lit s = lit t -> s = t.
Proof.
  revert t. induction s as [|c s IH]; intros [|d t]; try done.
  rewrite !lit_cons. intros [= Hc Hs]. f_equal; [|by apply IH].
  rewrite <- (ascii_N_embedding c), <- (ascii_N_embedding d). by rewrite Hc.
Qed.

(** The decimal digits of a number hold no hyphen. *)
Lemma pretty_N_go_no_dash x s :
  45%N ∉ lit s -> 45%N ∉ lit (pretty_N_go x s).
Proof.
  revert s. induction (N.lt_wf_0 x) as [x _ IH]; intros s Hs.
  assert (x = 0 \/ 0 < x)%N as [->|Hx] by lia.
  - by rewrite pretty_N_go_0.
  - rewrite pretty_N_go_step by done. apply IH.
    { by apply N.div_lt. }
    rewrite lit_cons. apply not_elem_of_cons. split; [|done].
    unfold pretty_N_char. by repeat case_match.
Qed.

Lemma show_N_no_dash n : 45%N ∉ show_N n.
Proof.
  unfold show_N, pretty, pretty_N. case_decide.
  - change (lit "0") with [48%N]. apply not_elem_of_cons.
    split; [done|apply not_elem_of_nil].
  - apply pretty_N_go_no_dash. apply not_elem_of_nil.
Qed.

Lemma show_nat_inj i j : show_nat i = show_nat j -> i = j.
Proof.
  unfold show_nat, show_N. intros H. apply lit_inj in H.
  apply (inj pretty) in H. lia.
Qed.

(** Two texts cut at their first hyphen agree on both sides of it. *)
Lemma split_at_dash (a a' b b' : jsstring) :
  45%N ∉ a -> 45%N ∉ a' -> a ++ 45%N :: b = a' ++ 45%N :: b' ->
  a = a' /\ b = b'.
Proof.
  revert a'. induction a as [|c a IH]; intros [|c' a'] Ha Ha' Heq;
    simpl in Heq.
  - by injection Heq.
  - injection Heq as <- _. exfalso. apply Ha'. by left.
  - injection Heq as -> _. exfalso. apply Ha. by left.
  - injection Heq as -> Heq.
    apply not_elem_of_cons in Ha as [_ Ha].
    apply not_elem_of_cons in Ha' as [_ Ha'].
    destruct (IH a' Ha Ha' Heq) as [-> ->]. done.
Qed.

Lemma sceneId_inj now i j : sceneId now i = sceneId now j -> i = j.
Proof.
  unfold sceneId. intros [= Heq].
  destruct (split_at_dash (show_N (now i)) (show_N (now j))
              (show_nat i) (show_nat j)
              (show_N_no_dash _) (show_N_no_dash _) Heq) as [_ Hindex].
  by apply show_nat_inj.
Qed.

Lemma sceneOfReply_id settings now scene index o :
  nullish scene = false -> own_props scene !! lit "id" = None ->
  sceneOfReply settings now scene index = Normal o ->
  field o (lit "id") = sceneId now index.
Proof.
  intros Hs Hown Ho. rewrite Reconciler.sceneOfReply_object in Ho by done.
  injection Ho as <-. unfold field, object_literal. cbn [own_props].
  cbn [fold_left add_member]. unfold define, spread.
  rewrite lookup_insert_ne by done. rewrite lookup_union_r by done.
  rewrite !lookup_insert_ne by done. by rewrite lookup_insert_eq.
Qed.

(** X21.  The scenes made from one reply have pairwise distinct ids: when
    no element of the [scenes] array is [null] or carries an [id] member of
    its own, the call returns one scene per element, the scene at position
    [j] has the id built from the clock reading and [j], and no two scenes
    of the result share an id - even when the clock does not advance. *)
Theorem generated_ids_distinct parsed settings now (l : list value) :
  nullish parsed = false ->
  field parsed (lit "scenes") = VArr l ->
  Forall (fun s => nullish s = false /\ own_props s !! lit "id" = None) l ->
  exists out,
    generateFullScriptAnalysis parsed settings now = Normal out
    /\ List.length out = List.length l
    /\ (forall j o, out !! j = Some o -> field o (lit "id") = sceneId now j)
    /\ NoDup (map (fun o => field o (lit "id")) out).
Proof.
  intros Hp Hl Hall.
  destruct (Reconciler.generateFullScriptAnalysis_array parsed settings now l
              Hp Hl) as [Hok _].
  destruct Hok as (out & Hout & Hlen & Hnth).
  { eapply Forall_impl; [exact Hall|]. by intros s [? _]. }
  assert (Hids : forall j o, out !! j = Some o ->
                             field o (lit "id") = sceneId now j).
  { intros j o Hj.
    destruct (lookup_lt_is_Some_2 l j) as [s Hs].
    { rewrite <- Hlen. by eapply lookup_lt_Some. }
    destruct (Hnth j s Hs) as (o' & Ho' & Hcall).
    assert (o' = o) as -> by congruence.
    rewrite Forall_lookup in Hall. destruct (Hall j s Hs) as [Hnn Hown].
    by eapply sceneOfReply_id. }
  exists out. split; [exact Hout|]. split; [exact Hlen|]. split; [exact Hids|].
  apply NoDup_alt. intros i j x Hi Hj.
  rewrite list_lookup_fmap in Hi, Hj.
  destruct (out !! i) as [oi|] eqn:Hoi; [|done].
  destruct (out !! j) as [oj|] eqn:Hoj; [|done].
  simpl in Hi, Hj. injection Hi as Hi. injection Hj as Hj.
  apply (sceneId_inj now). rewrite <- (Hids i oi Hoi), <- (Hids j oj Hoj).
  congruence.
Qed.

Definition replyTwoScenes : value :=
  VObj (list_to_map [ (lit "scenes", VArr [replyScene; replySceneNoPrompts]) ]).

(** X21 on a reply of two scenes, with a clock that stands still. *)
Lemma generated_ids_distinct_witness :
  exists out,
    generateFullScriptAnalysis replyTwoScenes settingsAuto sampleNow = Normal out
    /\ map (fun o => field o (lit "id")) out
       = [VStr (lit "scene-1700000000000-0"); VStr (lit "scene-1700000000000-1")]
    /\ NoDup (map (fun o => field o (lit "id")) out).
Proof.
  destruct (generated_ids_distinct replyTwoScenes settingsAuto sampleNow
              [replyScene; replySceneNoPrompts] eq_refl eq_refl)
    as (out & Hout & Hlen & Hids & Hnd).
  { repeat constructor. }
  exists out. split; [exact Hout|]. split; [|exact Hnd].
  destruct out as [|a [|b [|c out]]]; try discriminate Hlen.
  simpl. rewrite (Hids 0 a eq_refl), (Hids 1 b eq_refl).
  vm_compute. reflexivity.
Defined.

End ReconcilerFlows.
